(** * Policy Dimension Explorer: the filter-and-aggregate core of
      [policy_dashboard.py], embedded and verified.

    The script is a Streamlit page over a pandas [DataFrame].  The part with
    logic is small: the label helper, the three filters of the sidebar, the
    top metrics and the mechanism frequency table.  Each is embedded below as
    the source writes it: a boolean mask is computed from a column and the
    frame is indexed with the mask; column access raises [KeyError] on a
    column the frame does not have. *)

From Stdlib Require Import ZArith Ascii.
From stdpp Require Import base option list strings gmap sorting.

Open Scope Z_scope.

(** ** Cells, rows and frames *)

(** A cell of a frame read from CSV: a missing value, a boolean, a number or
    a string.  Numbers are integers here: a mechanism column loaded as 0/1. *)
Inductive cell : Type :=
  | NaN
  | Bool (b : bool)
  | Num (z : Z)
  | Str (s : string).

Global Instance cell_eq_dec : EqDecision cell.
Proof. solve_decision. Defined.

(** Python's [==] on two cells: [True == 1] and [False == 0] hold, a missing
    value equals nothing, and values of different kinds are different. *)
Definition py_eq (x y : cell) : bool :=
  match x, y with
  | Bool a, Bool b => bool_decide (a = b)
  | Bool a, Num z | Num z, Bool a => (z =? (if a then 1 else 0))
  | Num a, Num b => (a =? b)
  | Str a, Str b => bool_decide (a = b)
  | _, _ => false
  end.

Definition notna (x : cell) : bool :=
  match x with NaN => false | _ => true end.

(** A row maps column names to cells. *)
Abbreviation row := (gmap string cell).

Record DataFrame : Type := mkDataFrame {
  columns : list string;
  rows : list row
}.

(** [df.empty]: some axis of the frame has length zero. *)
Definition empty (df : DataFrame) : bool :=
  match columns df, rows df with
  | [], _ | _, [] => true
  | _, _ => false
  end.

(** [len(df)] *)
Definition len (df : DataFrame) : Z := Z.of_nat (length (rows df)).

(** ** Exceptions *)

Inductive exn : Type :=
  | KeyError (k : string)
  | TypeError.

Inductive result (A : Type) : Type :=
  | Ok (a : A)
  | Raise (e : exn).
Arguments Ok {A} a.
Arguments Raise {A} e.

Global Instance result_ret : MRet result := @Ok.
Global Instance result_bind : MBind result := λ A B f m,
  match m with
  | Ok a => f a
  | Raise e => Raise e
  end.

(** [returned m] forgets which exception was raised. *)
Definition returned {A} (m : result A) : option A :=
  match m with Ok a => Some a | Raise _ => None end.

(** ** Column access and boolean indexing *)

Definition cell_at (r : row) (c : string) : cell := default NaN (r !! c).

(** [df[c]] *)
Definition getitem (df : DataFrame) (c : string) : result (list cell) :=
  if bool_decide (c ∈ columns df)
  then Ok ((λ r, cell_at r c) <$> rows df)
  else Raise (KeyError c).

Fixpoint mask_rows (rs : list row) (mask : list bool) : list row :=
  match rs, mask with
  | r :: rs', b :: mask' =>
      if b then r :: mask_rows rs' mask' else mask_rows rs' mask'
  | _, _ => []
  end.

(** [df[mask]] *)
Definition boolean_index (df : DataFrame) (mask : list bool) : DataFrame :=
  mkDataFrame (columns df) (mask_rows (rows df) mask).

(** [series.isin(values)], the values being the strings of a multiselect. *)
Definition isin1 (values : list string) (x : cell) : bool :=
  match x with
  | Str s => bool_decide (s ∈ values)
  | _ => false
  end.
Definition isin (col : list cell) (values : list string) : list bool :=
  isin1 values <$> col.

(** [series == True] *)
Definition eq_True (col : list cell) : list bool :=
  (λ x, py_eq x (Bool true)) <$> col.

(** ** Helper functions *)

Definition is_upper (c : ascii) : bool :=
  let n := N_of_ascii c in ((65 <=? n) && (n <=? 90))%N.
Definition is_lower (c : ascii) : bool :=
  let n := N_of_ascii c in ((97 <=? n) && (n <=? 122))%N.
Definition is_cased (c : ascii) : bool := is_upper c || is_lower c.
Definition to_upper (c : ascii) : ascii :=
  if is_lower c then ascii_of_N (N_of_ascii c - 32) else c.
Definition to_lower (c : ascii) : ascii :=
  if is_upper c then ascii_of_N (N_of_ascii c + 32) else c.

(** [s.replace(old, new)] for one-character [old] and [new]. *)
Fixpoint replace (old new : ascii) (s : string) : string :=
  match s with
  | EmptyString => EmptyString
  | String c s' =>
      String (if bool_decide (c = old) then new else c) (replace old new s')
  end.

(** [s.title()] on ASCII text: a letter is upper-cased when the character
    before it is not a letter, and lower-cased otherwise.  A string is a
    sequence of bytes here, and the case mapping is that of the ASCII
    letters; text outside ASCII, where Python maps cases by the Unicode
    tables, is outside this model (see [ascii_only]). *)
Fixpoint title_from (previous_is_cased : bool) (s : string) : string :=
  match s with
  | EmptyString => EmptyString
  | String c s' =>
      String (if previous_is_cased then to_lower c else to_upper c)
             (title_from (is_cased c) s')
  end.
Definition title (s : string) : string := title_from false s.

Definition format_mechanism_label (mech_key : string) : string :=
  title (replace "_" " " mech_key).

(** The identifiers the label function is modelled on: ASCII text. *)
Fixpoint ascii_only (s : string) : bool :=
  match s with
  | EmptyString => true
  | String c s' => (N_of_ascii c <? 128)%N && ascii_only s'
  end.

(** ** Sidebar *)

Definition mechanism_cols : list string :=
  [ "age_verification";
    "parental_consent";
    "data_collection_limits";
    "algorithmic_restrictions";
    "duty_of_care";
    "risk_assessment_required";
    "default_privacy_settings";
    "school_based";
    "targets_all_platforms" ].

(** [[m for m in mechanism_cols if m in df.columns]]: the registry
    mechanisms that are columns of the frame, in registry order. *)
Definition valid_mech_cols (df : DataFrame) : list string :=
  filter (λ m, m ∈ columns df) mechanism_cols.

(** The dict [mech_filters]: one entry per registry mechanism that is a
    column of the frame, in registry order, holding the checkbox state. *)
Definition mech_filters (df : DataFrame) (checkbox : string → bool)
    : list (string * bool) :=
  (λ mech, (mech, checkbox mech)) <$> valid_mech_cols df.

(** ** Filtering logic *)

Definition filter_state (selected_states : list string) (filtered_df : DataFrame)
    : result DataFrame :=
  match selected_states with
  | [] => Ok filtered_df
  | _ =>
      col ← getitem filtered_df "state";
      Ok (boolean_index filtered_df (isin col selected_states))
  end.

Definition filter_paradigm (selected_paradigms : list string)
    (filtered_df : DataFrame) : result DataFrame :=
  match selected_paradigms with
  | [] => Ok filtered_df
  | _ =>
      col ← getitem filtered_df "paradigm";
      Ok (boolean_index filtered_df (isin col selected_paradigms))
  end.

Fixpoint filter_mechanisms (items : list (string * bool))
    (filtered_df : DataFrame) : result DataFrame :=
  match items with
  | [] => Ok filtered_df
  | (mech, is_checked) :: items' =>
      if is_checked && bool_decide (mech ∈ columns filtered_df)
      then col ← getitem filtered_df mech;
           filter_mechanisms items' (boolean_index filtered_df (eq_True col))
      else filter_mechanisms items' filtered_df
  end.

(** Lines 71-85: the copy of [df], narrowed by state, by paradigm and by
    every checked mechanism. *)
Definition filtered_df (df : DataFrame) (selected_states selected_paradigms : list string)
    (items : list (string * bool)) : result DataFrame :=
  df1 ← filter_state selected_states df;
  df2 ← filter_paradigm selected_paradigms df1;
  filter_mechanisms items df2.

(** The filter engine on a selection (J, P, M): the mechanisms of M are the
    checked boxes. *)
Definition apply (T : DataFrame) (J P M : list string) : result DataFrame :=
  filtered_df T J P (mech_filters T (λ mech, bool_decide (mech ∈ M))).

(** ** Top metrics *)

(** [series.unique()]: the distinct values, each at its first occurrence. *)
Fixpoint unique (col : list cell) : list cell :=
  match col with
  | [] => []
  | x :: col' => x :: filter (λ y, negb (py_eq x y)) (unique col')
  end.

(** [series.nunique()]: missing values are not counted. *)
Definition nunique (col : list cell) : Z :=
  Z.of_nat (length (unique (filter notna col))).

Definition count (x : cell) (col : list cell) : nat :=
  length (filter (λ y, py_eq x y) col).

Definition is_str (x : cell) : bool :=
  match x with Str _ => true | _ => false end.
Definition is_number (x : cell) : bool :=
  match x with Bool _ | Num _ => true | _ => false end.
Definition number_of (x : cell) : Z :=
  match x with
  | Bool b => if b then 1 else 0
  | Num z => z
  | _ => 0
  end.

(** The order the modes are sorted by: Python's [<=] between two strings
    (code point by code point) and between two numbers; across kinds,
    numbers come before strings. *)
Definition cell_leb (x y : cell) : bool :=
  match x, y with
  | Str a, Str b => String.leb a b
  | Str _, _ => false
  | _, Str _ => true
  | NaN, _ => true
  | _, NaN => false
  | _, _ => (number_of x <=? number_of y)
  end.
Definition cell_le (x y : cell) : Prop := cell_leb x y.

Global Instance cell_le_dec : RelDecision cell_le.
Proof. intros x y. unfold cell_le. apply _. Defined.

(** The sort [mode] applies to its result: strings in string order,
    numbers in numeric order, and in a mix of kinds the numbers first, then
    the strings. *)
Definition np_sort (l : list cell) : list cell := merge_sort cell_le l.

(** [series.mode()]: the most frequent non-missing values, sorted. *)
Definition mode (col : list cell) : list cell :=
  let values := filter notna col in
  let keys := unique values in
  let top := max_list ((λ k, count k values) <$> keys) in
  np_sort (filter (λ k, count k values = top) keys).

Definition top_paradigm_val (filtered_df : DataFrame) : result cell :=
  if negb (empty filtered_df)
  then col ← getitem filtered_df "paradigm";
       let top_paradigm := mode col in
       Ok (match top_paradigm with
           | x :: _ => x
           | [] => Str "None"
           end)
  else Ok (Str "N/A").

(** The three values shown by [col1.metric], [col2.metric], [col3.metric]. *)
Record Summary : Type := mkSummary {
  bills_found : Z;
  states_represented : Z;
  dominant_paradigm : cell
}.

Definition metrics (filtered_df : DataFrame) : result Summary :=
  states ← getitem filtered_df "state";
  top ← top_paradigm_val filtered_df;
  Ok (mkSummary (len filtered_df) (nunique states) top).

(** ** Mechanism frequency *)

(** [series.sum()] of a mechanism column that holds booleans and numbers:
    booleans count as 0/1 and missing values are skipped; the total is
    taken to fit the machine integer.  A column with a string in it is
    outside the data model (pandas concatenates strings, and raises on a
    mix): the model has no number to give there and stops with
    [TypeError]. *)
Fixpoint sum (col : list cell) : result Z :=
  match col with
  | [] => Ok 0
  | Str _ :: _ => Raise TypeError
  | x :: col' => s ← sum col'; Ok (number_of x + s)
  end.

Fixpoint sum_columns (df : DataFrame) (cols : list string)
    : result (list (string * Z)) :=
  match cols with
  | [] => Ok []
  | c :: cols' =>
      col ← getitem df c;
      s ← sum col;
      rest ← sum_columns df cols';
      Ok ((c, s) :: rest)
  end.

(** What the "Mechanism Frequency" panel shows: the table [mech_counts], the
    warning that the data has no mechanism column, or the note that there is
    no data to display. *)
Inductive frequency_panel : Type :=
  | MechCounts (mech_counts : list (string * Z))
  | NoMechanismColumns
  | NoDataToDisplay.

Definition mech_counts (filtered_df : DataFrame) : result frequency_panel :=
  if negb (empty filtered_df)
  then
    match valid_mech_cols filtered_df with
    | [] => Ok NoMechanismColumns
    | cols => counts ← sum_columns filtered_df cols;
              Ok (MechCounts counts)
    end
  else Ok NoDataToDisplay.

(** ** The top of the page *)

(** Lines 69-102 and 203-204.  On an empty loaded frame (the file was
    missing, or had no rows) the script computes nothing and shows a
    warning.  Otherwise it filters the frame and shows the three top
    metrics.  The tabs below the metrics (bill list, charts, heatmap) run
    after these lines; of them only the mechanism frequencies
    ([mech_counts]) are modelled, on their own. *)
Inductive metrics_row : Type :=
  | PleaseEnsureData
  | TopMetrics (filtered : DataFrame) (top : Summary).

Definition top_metrics (df : DataFrame)
    (selected_states selected_paradigms : list string)
    (checkbox : string → bool) : result metrics_row :=
  if negb (empty df)
  then
    filtered ← filtered_df df selected_states selected_paradigms
                 (mech_filters df checkbox);
    top ← metrics filtered;
    Ok (TopMetrics filtered top)
  else Ok PleaseEnsureData.

(** ** The scenario table of the specification *)

Definition bill (state paradigm : string) (age_verification : bool) : row :=
  {[ "state" := Str state; "name" := Str "bill"; "paradigm" := Str paradigm;
     "age_verification" := Bool age_verification ]}.

Definition scenario : DataFrame :=
  mkDataFrame ["state"; "name"; "paradigm"; "age_verification"]
    [ bill "CA" "Duty of Care" true;
      bill "TX" "Consent" false;
      bill "CA" "Duty of Care" true ].

(** ** The three rules of the filter engine, in any order *)

Inductive rule : Type := ByState | ByParadigm | ByMechanisms.

Section Rules.
Variables (J P : list string) (items : list (string * bool)).

Definition run_rule (ρ : rule) (df : DataFrame) : result DataFrame :=
  match ρ with
  | ByState => filter_state J df
  | ByParadigm => filter_paradigm P df
  | ByMechanisms => filter_mechanisms items df
  end.

Fixpoint run_rules (order : list rule) (df : DataFrame) : result DataFrame :=
  match order with
  | [] => Ok df
  | ρ :: order' => df' ← run_rule ρ df; run_rules order' df'
  end.

(** Whether a rule can run on a frame with columns [cols]. *)
Definition rule_runs (cols : list string) (ρ : rule) : bool :=
  match ρ with
  | ByState =>
      match J with [] => true | _ => bool_decide ("state" ∈ cols) end
  | ByParadigm =>
      match P with [] => true | _ => bool_decide ("paradigm" ∈ cols) end
  | ByMechanisms => true
  end.

(** Whether an entry of [mech_filters] lets a row through. *)
Definition item_keeps (cols : list string) (r : row) (it : string * bool) : bool :=
  negb (it.2 && bool_decide (it.1 ∈ cols))
  || py_eq (cell_at r it.1) (Bool true).

(** Whether a rule lets a row through. *)
Definition rule_keeps (cols : list string) (ρ : rule) (r : row) : bool :=
  match ρ with
  | ByState =>
      match J with [] => true | _ => isin1 J (cell_at r "state") end
  | ByParadigm =>
      match P with [] => true | _ => isin1 P (cell_at r "paradigm") end
  | ByMechanisms => forallb (item_keeps cols r) items
  end.

(** Whether every rule of a sequence lets a row through. *)
Definition keeps_all (cols : list string) (order : list rule) (r : row) : bool :=
  forallb (λ ρ, rule_keeps cols ρ r) order.
End Rules.

(** ** The label, word by word *)

(** [s.split(sep)] for a one-character separator. *)
Fixpoint split (sep : ascii) (s : string) : list string :=
  match s with
  | EmptyString => [EmptyString]
  | String c s' =>
      if bool_decide (c = sep) then EmptyString :: split sep s'
      else match split sep s' with
           | w :: ws => String c w :: ws
           | [] => [String c EmptyString]
           end
  end.

(** [sep.join(words)] *)
Fixpoint join (sep : string) (words : list string) : string :=
  match words with
  | [] => EmptyString
  | [w] => w
  | w :: words' => w +:+ sep +:+ join sep words'
  end.

(** The letters, written out. *)
Definition lower_letters : string := "abcdefghijklmnopqrstuvwxyz".
Definition upper_letters : string := "ABCDEFGHIJKLMNOPQRSTUVWXYZ".

(** Whether a character is one of the characters of a string. *)
Fixpoint member (c : ascii) (s : string) : bool :=
  match s with
  | EmptyString => false
  | String c' s' => bool_decide (c' = c) || member c s'
  end.

(** The character at the place in [to] where [c] stands in [from]; [c]
    itself when it does not stand in [from]. *)
Fixpoint translate (from to : string) (c : ascii) : ascii :=
  match from, to with
  | String a from', String b to' =>
      if bool_decide (c = a) then b else translate from' to' c
  | _, _ => c
  end.

Definition is_letter (c : ascii) : bool :=
  member c lower_letters || member c upper_letters.
Definition upper_letter (c : ascii) : ascii :=
  translate lower_letters upper_letters c.
Definition lower_letter (c : ascii) : ascii :=
  translate upper_letters lower_letters c.

(** A word in title case: each letter that begins the word, or stands
    behind a character that is no letter, is written in upper case; each
    letter behind a letter in lower case; the other characters stay. *)
Fixpoint title_case_after (previous : ascii) (word : string) : string :=
  match word with
  | EmptyString => EmptyString
  | String c word' =>
      String (if is_letter previous then lower_letter c else upper_letter c)
             (title_case_after c word')
  end.
Definition title_case (word : string) : string := title_case_after " " word.

(** The label as the specification words it: split the identifier on the
    underscore, title-case each word, join the words with a space. *)
Definition label_by_words (mech_key : string) : string :=
  join " " (title_case <$> split "_" mech_key).

(** The title-cased words after the first one, each behind its space. *)
Definition titled_tail (words : list string) : string :=
  foldr (λ w acc, " " +:+ title w +:+ acc) "" words.

(** ** Well-typed tables *)

(** A mechanism cell holds a flag: a boolean, 0, 1, or nothing. *)
Definition is_flag (x : cell) : bool :=
  match x with
  | NaN | Bool _ => true
  | Num z => (z =? 0) || (z =? 1)
  | Str _ => false
  end.

Definition flags_ok (df : DataFrame) : bool :=
  forallb (λ r, forallb (λ m, is_flag (cell_at r m)) (valid_mech_cols df))
    (rows df).

(** The data model of the engine: the state and paradigm columns are there
    and every active mechanism column holds flags. *)
Definition well_typed (df : DataFrame) : bool :=
  bool_decide ("state" ∈ columns df)
  && bool_decide ("paradigm" ∈ columns df)
  && flags_ok df.

(** The number of rows of [df] whose mechanism [m] is true. *)
Definition true_rows (df : DataFrame) (m : string) : Z :=
  Z.of_nat (length (filter (λ r, py_eq (cell_at r m) (Bool true)) (rows df))).

(** The number of rows of [df] whose paradigm is the string [s]. *)
Definition paradigm_count (df : DataFrame) (s : string) : nat :=
  length (filter (λ r, cell_at r "paradigm" = Str s) (rows df)).

(** A paradigm cell is a string or missing. *)
Definition is_label (x : cell) : bool :=
  match x with NaN | Str _ => true | _ => false end.

(** The scenario table with one more Texas bill: two paradigms, two bills
    each. *)
Definition tie : DataFrame :=
  mkDataFrame (columns scenario) (rows scenario ++ [bill "TX" "Consent" true]).

(** The scenario table with one more bill that has a name and nothing
    else: its state, paradigm and mechanism are missing. *)
Definition gaps : DataFrame :=
  mkDataFrame (columns scenario) (rows scenario ++ [{[ "name" := Str "bill" ]}]).


(** The scenario table with every row filtered out. *)
Definition no_rows : DataFrame := mkDataFrame (columns scenario) [].

(** ** Sidebar options *)

(** [sorted(values)]: Python compares strings with strings and numbers with
    numbers; a list that mixes the two raises [TypeError]. *)
Definition sorted (values : list cell) : result (list cell) :=
  if forallb is_str values || forallb is_number values
  then Ok (merge_sort cell_le values)
  else Raise TypeError.

(** [sorted(df[c].dropna().unique())], the options of a multiselect. *)
Definition options (df : DataFrame) (c : string) : result (list cell) :=
  col ← getitem df c;
  sorted (unique (filter notna col)).

Definition all_states (df : DataFrame) : result (list cell) := options df "state".
Definition all_paradigms (df : DataFrame) : result (list cell) :=
  options df "paradigm".

(** [all_states[:3] if len(all_states) > 0 else []] *)
Definition default_states (all_states : list cell) : list cell :=
  match all_states with
  | [] => []
  | _ => take 3 all_states
  end.

(** The strings among the selected options: what [isin] can match. *)
Definition labels_of (selected : list cell) : list string :=
  omap (λ x, match x with Str s => Some s | _ => None end) selected.

(** ** Heatmap *)

(** Python's truth value of a cell: a missing value is a float NaN, which
    is true. *)
Definition truthy (x : cell) : bool :=
  match x with
  | NaN => true
  | Bool b => b
  | Num z => negb (z =? 0)
  | Str s => negb (bool_decide (s = ""))
  end.

(** [lambda x: "✅" if x else "❌"] *)
Definition heatmap_mark (x : cell) : string :=
  if truthy x then "✅" else "❌".

(** The column names of [heatmap_display], also the labels of the
    frequency chart and of the checkboxes. *)
Definition mechanism_labels (df : DataFrame) : list string :=
  format_mechanism_label <$> valid_mech_cols df.

(** A character of a snake_case identifier: an ASCII character other than
    an upper-case letter or a space. *)
Definition snake_char (c : ascii) : bool :=
  (N_of_ascii c <? 128)%N
  && negb (is_upper c) && negb (bool_decide (c = " "%char)).
Fixpoint snake_case (s : string) : bool :=
  match s with
  | EmptyString => true
  | String c s' => snake_char c && snake_case s'
  end.

(** What [format_mechanism_label] makes of one character: the underscore
    becomes a space, and the result is lower-cased behind a cased character
    and upper-cased elsewhere. *)
Definition label_char (previous_is_cased : bool) (c : ascii) : ascii :=
  let c' := if bool_decide (c = "_"%char) then " "%char else c in
  if previous_is_cased then to_lower c' else to_upper c'.

(** The snake_case character a label character comes from. *)
Definition key_char (x : ascii) : ascii :=
  let y := to_lower x in
  if bool_decide (y = " "%char) then "_"%char else y.

(** * Proofs *)

(** ** Boolean indexing is list filtering *)

Lemma mask_rows_fmap (p : row → bool) (rs : list row) :
  mask_rows rs (p <$> rs) = filter (λ r, p r) rs.
Proof.
  induction rs as [|r rs IH]; [done|].
  cbn [fmap list_fmap mask_rows]. rewrite filter_cons.
  fold (fmap p rs). rewrite IH.
  destruct (p r) eqn:E; case_decide as D; rewrite ?E in D; done.
Qed.

Lemma boolean_index_getitem (df : DataFrame) (c : string) (p : cell → bool) :
  boolean_index df (p <$> ((λ r, cell_at r c) <$> rows df))
  = mkDataFrame (columns df) (filter (λ r, p (cell_at r c)) (rows df)).
Proof.
  unfold boolean_index. f_equal.
  rewrite <- list_fmap_compose. apply (mask_rows_fmap (λ r, p (cell_at r c))).
Qed.

Lemma DataFrame_eta (df : DataFrame) :
  mkDataFrame (columns df) (rows df) = df.
Proof. by destruct df. Qed.

Lemma filter_all {A} (P : A → Prop) `{!∀ x, Decision (P x)} (l : list A) :
  (∀ x, x ∈ l → P x) → filter P l = l.
Proof.
  induction l as [|x l IH]; intros Hall; [done|].
  rewrite filter_cons, decide_True by (apply Hall; left).
  f_equal. apply IH. intros y Hy. apply Hall. by right.
Qed.

Section RuleFacts.
Variables (J P : list string) (items : list (string * bool)).

Lemma filter_state_spec (df : DataFrame) :
  filter_state J df =
    if rule_runs J P (columns df) ByState
    then Ok (mkDataFrame (columns df)
               (filter (λ r, rule_keeps J P items (columns df) ByState r) (rows df)))
    else Raise (KeyError "state").
Proof.
  unfold filter_state, rule_runs, rule_keeps, getitem.
  destruct J as [|j J'].
  - rewrite filter_all by done. by rewrite DataFrame_eta.
  - case_bool_decide; [|done]. cbn. unfold isin.
    by rewrite boolean_index_getitem.
Qed.

Lemma filter_paradigm_spec (df : DataFrame) :
  filter_paradigm P df =
    if rule_runs J P (columns df) ByParadigm
    then Ok (mkDataFrame (columns df)
               (filter (λ r, rule_keeps J P items (columns df) ByParadigm r) (rows df)))
    else Raise (KeyError "paradigm").
Proof.
  unfold filter_paradigm, rule_runs, rule_keeps, getitem.
  destruct P as [|p P'].
  - rewrite filter_all by done. by rewrite DataFrame_eta.
  - case_bool_decide; [|done]. cbn. unfold isin.
    by rewrite boolean_index_getitem.
Qed.
End RuleFacts.

Lemma filter_mechanisms_spec (items : list (string * bool)) (df : DataFrame) :
  filter_mechanisms items df =
    Ok (mkDataFrame (columns df)
          (filter (λ r, forallb (item_keeps (columns df) r) items) (rows df))).
Proof.
  revert df. induction items as [|[mech is_checked] items IH]; intros df.
  - cbn. rewrite filter_all by done. by rewrite DataFrame_eta.
  - cbn [filter_mechanisms].
    destruct (is_checked && bool_decide (mech ∈ columns df)) eqn:G.
    + apply andb_true_iff in G as [-> Hin%bool_decide_eq_true].
      unfold getitem. rewrite bool_decide_eq_true_2 by done.
      cbn [mbind result_bind].
      unfold eq_True. rewrite boolean_index_getitem, IH. cbn [columns rows].
      do 2 f_equal. rewrite list_filter_filter.
      apply list_filter_iff. intros r. cbn [forallb].
      assert (item_keeps (columns df) r (mech, true)
              = py_eq (cell_at r mech) (Bool true)) as ->.
      { unfold item_keeps. cbn [fst snd].
        by rewrite bool_decide_eq_true_2 by done. }
      rewrite andb_True. tauto.
    + rewrite IH. do 2 f_equal. apply list_filter_iff. intros r.
      cbn [forallb].
      assert (item_keeps (columns df) r (mech, is_checked) = true) as ->; [|done].
      unfold item_keeps. cbn [fst snd]. by rewrite G.
Qed.

(** ** Any sequence of rules is one filter *)

Section Orders.
Variables (J P : list string) (items : list (string * bool)).

Lemma run_rule_returned (ρ : rule) (df : DataFrame) :
  returned (run_rule J P items ρ df) =
    if rule_runs J P (columns df) ρ
    then Some (mkDataFrame (columns df)
                 (filter (λ r, rule_keeps J P items (columns df) ρ r) (rows df)))
    else None.
Proof.
  destruct ρ; cbn [run_rule].
  - rewrite (filter_state_spec J P items). by destruct (rule_runs _ _ _ _).
  - rewrite (filter_paradigm_spec J P items). by destruct (rule_runs _ _ _ _).
  - by rewrite filter_mechanisms_spec.
Qed.

Lemma returned_bind {A B} (m : result A) (f : A → result B) :
  returned (m ≫= f) = returned m ≫= (λ a, returned (f a)).
Proof. by destruct m. Qed.

Lemma run_rules_returned (order : list rule) (df : DataFrame) :
  returned (run_rules J P items order df) =
    if forallb (rule_runs J P (columns df)) order
    then Some (mkDataFrame (columns df)
                 (filter (λ r, keeps_all J P items (columns df) order r) (rows df)))
    else None.
Proof.
  revert df. induction order as [|ρ order IH]; intros df.
  - cbn. rewrite filter_all by done. by rewrite DataFrame_eta.
  - cbn [run_rules forallb]. rewrite returned_bind, run_rule_returned.
    destruct (rule_runs J P (columns df) ρ); [|done].
    cbn [mbind option_bind andb]. rewrite IH. cbn [columns rows].
    destruct (forallb _ order); [|done].
    do 2 f_equal. rewrite list_filter_filter. apply list_filter_iff.
    intros r. unfold keeps_all. cbn [forallb]. rewrite andb_True. tauto.
Qed.

Lemma forallb_Permutation {A} (f : A → bool) (l1 l2 : list A) :
  l1 ≡ₚ l2 → forallb f l1 = forallb f l2.
Proof.
  induction 1 as [|x l1 l2 _ IH|x y l|l1 l2 l3 _ IH1 _ IH2]; cbn.
  - done.
  - by rewrite IH.
  - by destruct (f x), (f y).
  - by rewrite IH1.
Qed.

Lemma run_rules_Permutation (order order' : list rule) (df : DataFrame) :
  order ≡ₚ order' →
  returned (run_rules J P items order df)
  = returned (run_rules J P items order' df).
Proof.
  intros Hp. rewrite !run_rules_returned.
  rewrite (forallb_Permutation _ _ _ Hp).
  destruct (forallb _ order'); [|done]. do 2 f_equal.
  apply list_filter_iff. intros r. unfold keeps_all.
  by rewrite (forallb_Permutation _ _ _ Hp).
Qed.

Lemma filtered_df_run_rules (df : DataFrame) :
  filtered_df df J P items
  = run_rules J P items [ByState; ByParadigm; ByMechanisms] df.
Proof.
  unfold filtered_df. cbn [run_rules run_rule].
  destruct (filter_state J df) as [df1|]; [|done]. cbn [mbind result_bind].
  destruct (filter_paradigm P df1) as [df2|]; [|done]. cbn [mbind result_bind].
  by destruct (filter_mechanisms items df2).
Qed.

Lemma filtered_df_Ok (df F : DataFrame) :
  filtered_df df J P items = Ok F →
  F = mkDataFrame (columns df)
        (filter (λ r, keeps_all J P items (columns df) [ByState; ByParadigm; ByMechanisms] r)
           (rows df)).
Proof.
  intros HF.
  pose proof (run_rules_returned [ByState; ByParadigm; ByMechanisms] df) as HR.
  rewrite <- filtered_df_run_rules, HF in HR. cbn [returned] in HR.
  destruct (forallb _ _); congruence.
Qed.

Lemma filtered_df_total (df : DataFrame) :
  "state" ∈ columns df → "paradigm" ∈ columns df →
  filtered_df df J P items =
    Ok (mkDataFrame (columns df)
          (filter (λ r, keeps_all J P items (columns df) [ByState; ByParadigm; ByMechanisms] r)
             (rows df))).
Proof.
  intros Hs Hp.
  pose proof (run_rules_returned [ByState; ByParadigm; ByMechanisms] df) as HR.
  rewrite <- filtered_df_run_rules in HR.
  assert (forallb (rule_runs J P (columns df))
            [ByState; ByParadigm; ByMechanisms] = true) as E.
  { cbn. rewrite !bool_decide_eq_true_2 by done. by destruct J, P. }
  rewrite E in HR.
  destruct (filtered_df df J P items); cbn [returned] in HR; congruence.
Qed.
End Orders.

(** ** The mechanism filter on a set of required mechanisms *)

Lemma py_eq_True_iff (x : cell) :
  py_eq x (Bool true) = true ↔ x = Bool true ∨ x = Num 1.
Proof.
  destruct x as [|[]|z|s]; cbn.
  - split; [done|]. by intros [|].
  - split; auto.
  - split; [done|]. by intros [|].
  - rewrite Z.eqb_eq. split; [intros ->; by right|]. by intros [|[= ->]].
  - split; [done|]. by intros [|].
Qed.

Lemma elem_of_valid_mech_cols (df : DataFrame) (m : string) :
  m ∈ valid_mech_cols df ↔ m ∈ columns df ∧ m ∈ mechanism_cols.
Proof. unfold valid_mech_cols. by rewrite list_elem_of_filter. Qed.

Lemma mech_filters_keeps (T : DataFrame) (checkbox : string → bool) (r : row) :
  forallb (item_keeps (columns T) r) (mech_filters T checkbox) = true ↔
  ∀ m, m ∈ valid_mech_cols T → checkbox m = true →
       py_eq (cell_at r m) (Bool true) = true.
Proof.
  unfold mech_filters. rewrite forallb_forall. split.
  - intros H m Hm Hc.
    specialize (H (m, checkbox m)). unfold item_keeps in H. cbn [fst snd] in H.
    rewrite Hc in H.
    pose proof (proj1 (elem_of_valid_mech_cols _ _) Hm) as [Hcol _].
    rewrite bool_decide_eq_true_2 in H by done. cbn [andb negb orb] in H.
    apply H, list_elem_of_In, list_elem_of_fmap. exists m.
    split; [by rewrite Hc|done].
  - intros H [m c] Hin%list_elem_of_In.
    apply list_elem_of_fmap in Hin as (m' & [= -> ->] & Hm).
    unfold item_keeps. cbn [fst snd].
    destruct (checkbox m') eqn:Hc; [|done].
    rewrite (H m' Hm Hc). apply orb_true_r.
Qed.

Lemma filter_mechanisms_unchecked (items : list (string * bool)) (df : DataFrame) :
  (∀ it, it ∈ items → it.2 = false) → filter_mechanisms items df = Ok df.
Proof.
  induction items as [|[mech is_checked] items IH]; intros Hun; [done|].
  cbn [filter_mechanisms].
  pose proof (Hun (mech, is_checked) ltac:(left)) as E. cbn [snd] in E.
  rewrite E. cbn [andb].
  apply IH. intros it Hit. apply Hun. by right.
Qed.

(** ** The filter engine *)

(** C1. Every row of [apply T J P M] is a row of [T]: the result keeps the
    columns of [T], and its rows are rows of [T], unchanged and in the order
    of [T]; the engine only removes rows. *)
Theorem apply_rows_subset (T : DataFrame) (J P M : list string) (F : DataFrame) :
  apply T J P M = Ok F →
  columns F = columns T
  ∧ rows F `sublist_of` rows T
  ∧ ∀ r, r ∈ rows F → r ∈ rows T.
Proof.
  intros HF. apply filtered_df_Ok in HF. subst F. cbn [columns rows].
  split; [done|]. split; [apply sublist_filter|].
  intros r Hr. by apply list_elem_of_filter in Hr as [_ ?].
Qed.

Lemma apply_rows_subset_witness :
  columns (boolean_index scenario [true; false; true]) = columns scenario
  ∧ rows (boolean_index scenario [true; false; true]) `sublist_of` rows scenario
  ∧ ∀ r, r ∈ rows (boolean_index scenario [true; false; true]) → r ∈ rows scenario.
Proof.
  apply (apply_rows_subset scenario ["CA"] [] ["age_verification"]).
  vm_compute. reflexivity.
Defined.

(** C2. Mechanism filtering is conjunctive: for a set [M] of required
    mechanisms, each of them an active mechanism of the table, a row survives
    the mechanism filter exactly when its value is true for every mechanism
    of [M]; the true values are the boolean [True] and the number 1, so that
    0/1 columns are accepted (0, [False] and a missing value are not true). *)
Theorem mechanism_filter_conjunctive (T : DataFrame) (M : list string) :
  M ⊆ valid_mech_cols T →
  ∃ F, filter_mechanisms (mech_filters T (λ m, bool_decide (m ∈ M))) T = Ok F
       ∧ ∀ r, r ∈ rows F ↔
              r ∈ rows T
              ∧ ∀ m, m ∈ M → cell_at r m = Bool true ∨ cell_at r m = Num 1.
Proof.
  intros HM. eexists. split; [apply filter_mechanisms_spec|].
  intros r. cbn [rows]. rewrite list_elem_of_filter, Is_true_true, mech_filters_keeps.
  split.
  - intros [Hkeep Hr]. split; [done|].
    intros m Hm. apply py_eq_True_iff, Hkeep; [by apply HM|].
    by apply bool_decide_eq_true_2.
  - intros [Hr Htrue]. split; [|done].
    intros m _ Hm%bool_decide_eq_true. by apply py_eq_True_iff, Htrue.
Qed.

Lemma mechanism_filter_conjunctive_witness :
  ∃ F, filter_mechanisms
         (mech_filters scenario (λ m, bool_decide (m ∈ ["age_verification"])))
         scenario = Ok F
       ∧ ∀ r, r ∈ rows F ↔
              r ∈ rows scenario
              ∧ ∀ m, m ∈ ["age_verification"] →
                     cell_at r m = Bool true ∨ cell_at r m = Num 1.
Proof.
  apply (mechanism_filter_conjunctive scenario ["age_verification"]).
  apply (bool_decide_unpack _). vm_compute. exact I.
Defined.

(** C3. The three rules commute: run in any of the six orders, over the
    same selections, they return exactly when the implemented order (state,
    then paradigm, then mechanisms) returns, and then with the same frame,
    hence the same rows. *)
Theorem rules_commute (T : DataFrame) (J P M : list string) (order : list rule) :
  order ≡ₚ [ByState; ByParadigm; ByMechanisms] →
  returned (run_rules J P (mech_filters T (λ m, bool_decide (m ∈ M))) order T)
  = returned (apply T J P M).
Proof.
  intros Hp. unfold apply. rewrite filtered_df_run_rules.
  by apply run_rules_Permutation.
Qed.

Lemma rules_commute_witness :
  returned (run_rules ["CA"] ["Duty of Care"]
              (mech_filters scenario (λ m, bool_decide (m ∈ ["age_verification"])))
              [ByMechanisms; ByState; ByParadigm] scenario)
  = returned (apply scenario ["CA"] ["Duty of Care"] ["age_verification"]).
Proof.
  apply rules_commute.
  change ([ByMechanisms] ++ [ByState; ByParadigm]
          ≡ₚ [ByState; ByParadigm] ++ [ByMechanisms]).
  apply Permutation_app_comm.
Defined.

(** C4. With no state, no paradigm and no mechanism selected the engine
    returns the table itself: an empty selection restricts nothing. *)
Theorem apply_empty_selection (T : DataFrame) :
  apply T [] [] [] = Ok T.
Proof.
  unfold apply, filtered_df. cbn [filter_state filter_paradigm mbind result_bind].
  apply filter_mechanisms_unchecked.
  intros [m c] Hin. unfold mech_filters in Hin.
  apply list_elem_of_fmap in Hin as (m' & [= -> ->] & _).
  reflexivity.
Qed.

(** C5. Requiring more mechanisms never gives more rows: for [M ⊆ M'], on
    a table with the state and paradigm columns, both selections return, and
    the rows for [M'] are among the rows for [M], so they are at most as
    many. *)
Theorem more_mechanisms_fewer_rows (T : DataFrame) (J P M M' : list string) :
  M ⊆ M' →
  "state" ∈ columns T → "paradigm" ∈ columns T →
  ∃ F F', apply T J P M = Ok F
          ∧ apply T J P M' = Ok F'
          ∧ rows F' `sublist_of` rows F
          ∧ (len F' ≤ len F)%Z.
Proof.
  intros HM Hs Hp. unfold apply.
  rewrite !filtered_df_total by done.
  do 2 eexists. split; [done|]. split; [done|]. cbn [rows].
  set (k := λ (N : list string) (r : row), keeps_all J P (mech_filters T (λ m, bool_decide (m ∈ N)))
                     (columns T) [ByState; ByParadigm; ByMechanisms] r).
  assert (filter (λ r, k M' r) (rows T)
          = filter (λ r, k M' r) (filter (λ r, k M r) (rows T))) as E.
  { rewrite list_filter_filter. apply list_filter_iff. intros r.
    split; [|tauto]. intros H'. split; [done|].
    unfold k, keeps_all in *. cbn [forallb rule_keeps] in *.
    rewrite !andb_True in *. destruct H' as (H1 & H2 & H3 & _).
    repeat split; try done.
    apply Is_true_true, mech_filters_keeps. intros m Hm Hc%bool_decide_eq_true.
    apply Is_true_true in H3. apply (proj1 (mech_filters_keeps _ _ _) H3 m Hm).
    apply bool_decide_eq_true_2. by apply HM. }
  assert (filter (λ r, k M' r) (rows T) `sublist_of` filter (λ r, k M r) (rows T))
    as Hsub by (rewrite E; apply sublist_filter).
  split; [done|]. unfold len. cbn [rows].
  apply inj_le. by apply sublist_length.
Qed.

Lemma more_mechanisms_fewer_rows_witness :
  ∃ F F', apply scenario ["CA"] [] [] = Ok F
          ∧ apply scenario ["CA"] [] ["age_verification"] = Ok F'
          ∧ rows F' `sublist_of` rows F
          ∧ (len F' ≤ len F)%Z.
Proof.
  apply more_mechanisms_fewer_rows.
  - apply list_subseteq_nil.
  - apply (bool_decide_unpack _). vm_compute. exact I.
  - apply (bool_decide_unpack _). vm_compute. exact I.
Defined.

(** ** Labels *)

Lemma split_nonempty (sep : ascii) (s : string) : split sep s ≠ [].
Proof.
  induction s as [|c s IH]; cbn; [done|].
  case_bool_decide; [done|]. by destruct (split sep s).
Qed.

Lemma append_empty_r (s : string) : s +:+ "" = s.
Proof.
  induction s as [|c s IH]; [done|].
  change (String c (s +:+ "") = String c s). by rewrite IH.
Qed.

Lemma join_titled (w : string) (words : list string) :
  join " " (title <$> (w :: words)) = title w +:+ titled_tail words.
Proof.
  revert w. induction words as [|w' words IH]; intros w.
  - cbn. by rewrite append_empty_r.
  - change (join " " (title <$> w :: w' :: words))
      with (title w +:+ " " +:+ join " " (title <$> (w' :: words))).
    by rewrite IH.
Qed.

Lemma title_from_replace (b : bool) (k : string) :
  ∃ w words, split "_" k = w :: words
    ∧ title_from b (replace "_" " " k) = title_from b w +:+ titled_tail words.
Proof.
  revert b. induction k as [|c k IH]; intros b.
  - exists "", []. done.
  - cbn [split replace]. case_bool_decide as Hc.
    + subst c. destruct (IH false) as (w & words & Hsplit & Htitle).
      exists "", (w :: words). split; [by rewrite Hsplit|].
      cbn [title_from]. change (is_cased " ") with false.
      rewrite Htitle. by destruct b.
    + destruct (IH (is_cased c)) as (w & words & Hsplit & Htitle).
      exists (String c w), words. rewrite Hsplit. split; [done|].
      cbn [title_from]. by rewrite Htitle.
Qed.

Lemma is_cased_is_letter (c : ascii) : is_cased c = is_letter c.
Proof. destruct c as [[] [] [] [] [] [] [] []]; by vm_compute. Qed.

Lemma to_upper_upper_letter (c : ascii) : to_upper c = upper_letter c.
Proof. destruct c as [[] [] [] [] [] [] [] []]; by vm_compute. Qed.

Lemma to_lower_lower_letter (c : ascii) : to_lower c = lower_letter c.
Proof. destruct c as [[] [] [] [] [] [] [] []]; by vm_compute. Qed.

Lemma title_from_title_case (previous : ascii) (w : string) :
  title_from (is_cased previous) w = title_case_after previous w.
Proof.
  revert previous. induction w as [|c w IH]; intros previous; [done|].
  cbn [title_from title_case_after].
  by rewrite IH, is_cased_is_letter, to_upper_upper_letter, to_lower_lower_letter.
Qed.

Lemma title_title_case (w : string) : title w = title_case w.
Proof. apply (title_from_title_case " "). Qed.

(** C8. The label of an identifier is the identifier with every underscore
    replaced by a space and every word in title case: it is what one gets by
    splitting the identifier on the underscore, writing each word in title
    case (upper case for a letter that begins a run of letters, lower case
    for the letters that follow) and joining the words with spaces.  This
    holds for every ASCII identifier, in or out of the registry, without a
    check or an error; so [age_verification] gives [Age Verification] and
    [targets_all_platforms] gives [Targets All Platforms], and upper-case
    letters and digits inside an identifier are treated alike. *)
Theorem format_mechanism_label_words (mech_key : string) :
  ascii_only mech_key = true →
  format_mechanism_label mech_key = label_by_words mech_key
  ∧ format_mechanism_label "age_verification" = "Age Verification"
  ∧ format_mechanism_label "targets_all_platforms" = "Targets All Platforms"
  ∧ format_mechanism_label "not_in_the_registry" = "Not In The Registry"
  ∧ format_mechanism_label "AGE_verification" = "Age Verification"
  ∧ format_mechanism_label "two_factor_2fa" = "Two Factor 2Fa".
Proof.
  intros _. split; [|by vm_compute].
  unfold format_mechanism_label, label_by_words, title.
  destruct (title_from_replace false mech_key) as (w & words & -> & ->).
  rewrite <- (list_fmap_ext title title_case (w :: words))
    by (intros; apply title_title_case).
  by rewrite join_titled.
Qed.

Lemma format_mechanism_label_words_witness :
  format_mechanism_label "COPPA_rule_2fa" = label_by_words "COPPA_rule_2fa"
  ∧ format_mechanism_label "age_verification" = "Age Verification"
  ∧ format_mechanism_label "targets_all_platforms" = "Targets All Platforms"
  ∧ format_mechanism_label "not_in_the_registry" = "Not In The Registry"
  ∧ format_mechanism_label "AGE_verification" = "Age Verification"
  ∧ format_mechanism_label "two_factor_2fa" = "Two Factor 2Fa".
Proof. apply format_mechanism_label_words. reflexivity. Defined.

Example label_by_words_COPPA : label_by_words "COPPA_rule_2fa" = "Coppa Rule 2Fa".
Proof. by vm_compute. Qed.

(** ** Aggregation *)

Lemma getitem_Ok (df : DataFrame) (c : string) :
  c ∈ columns df → getitem df c = Ok ((λ r, cell_at r c) <$> rows df).
Proof. intros Hc. unfold getitem. by rewrite bool_decide_eq_true_2. Qed.

Lemma length_filter_fmap {A B} (f : A → B) (p : B → bool) (l : list A) :
  length (filter (λ y, p y) (f <$> l)) = length (filter (λ x, p (f x)) l).
Proof.
  induction l as [|x l IH]; [done|].
  cbn [fmap list_fmap]. fold (fmap f l). rewrite !filter_cons.
  destruct (p (f x)) eqn:E; repeat case_decide; cbn [length];
    rewrite ?E in *; try done; by rewrite IH.
Qed.

Lemma sum_flags (col : list cell) :
  forallb is_flag col = true →
  sum col
  = Ok (Z.of_nat (length (filter (λ x, py_eq x (Bool true)) col))).
Proof.
  induction col as [|x col IH]; [done|].
  cbn [forallb]. intros [Hx Hcol]%andb_true_iff.
  rewrite filter_cons.
  assert (sum (x :: col) = s ← sum col; Ok (number_of x + s)) as ->
    by (by destruct x).
  rewrite (IH Hcol). cbn [mbind result_bind]. f_equal.
  assert (x = NaN ∨ x = Bool false ∨ x = Num 0 ∨ x = Bool true ∨ x = Num 1)
    as Hcases.
  { destruct x as [|[]|z|s]; [tauto..| |done]. cbn [is_flag] in Hx.
    apply orb_true_iff in Hx as [->%Z.eqb_eq| ->%Z.eqb_eq]; tauto. }
  destruct Hcases as [->|[->|[->|[->| ->]]]];
    case_decide as D; cbn in D; try done; cbn [length number_of]; lia.
Qed.

Lemma sum_columns_flags (df : DataFrame) (cols : list string) :
  (∀ m, m ∈ cols → m ∈ columns df) →
  (∀ r m, r ∈ rows df → m ∈ cols → is_flag (cell_at r m) = true) →
  sum_columns df cols = Ok ((λ m, (m, true_rows df m)) <$> cols).
Proof.
  induction cols as [|c cols IH]; intros Hcols Hflags; [done|].
  cbn [sum_columns]. rewrite getitem_Ok by (apply Hcols; left).
  cbn [mbind result_bind]. rewrite sum_flags.
  - cbn [mbind result_bind]. rewrite IH.
    + cbn [mbind result_bind fmap list_fmap]. do 3 f_equal.
      unfold true_rows. f_equal.
      apply (length_filter_fmap _ (λ x, py_eq x (Bool true))).
    + intros m Hm. apply Hcols. by right.
    + intros r m Hr Hm. apply Hflags; [done|by right].
  - apply forallb_forall. intros x Hx%list_elem_of_In.
    apply list_elem_of_fmap in Hx as (r & -> & Hr). apply Hflags; [done|left].
Qed.

Lemma flags_ok_cells (df : DataFrame) :
  flags_ok df = true →
  ∀ r m, r ∈ rows df → m ∈ valid_mech_cols df → is_flag (cell_at r m) = true.
Proof.
  unfold flags_ok. intros Hok r m Hr Hm.
  rewrite forallb_forall in Hok. specialize (Hok r (proj1 (list_elem_of_In _ _) Hr)).
  rewrite forallb_forall in Hok. apply Hok. by apply list_elem_of_In.
Qed.

Lemma flags_ok_filter (df : DataFrame) (p : row → bool) :
  flags_ok df = true →
  flags_ok (mkDataFrame (columns df) (filter (λ r, p r) (rows df))) = true.
Proof.
  intros Hok. unfold flags_ok. cbn [rows].
  apply forallb_forall. intros r [_ Hr]%list_elem_of_In%list_elem_of_filter.
  apply forallb_forall. intros m Hm%list_elem_of_In.
  by apply (flags_ok_cells df Hok).
Qed.

Lemma mech_counts_flags (F : DataFrame) :
  flags_ok F = true →
  mech_counts F =
    Ok (if empty F then NoDataToDisplay
        else match valid_mech_cols F with
             | [] => NoMechanismColumns
             | cols => MechCounts ((λ m, (m, true_rows F m)) <$> cols)
             end).
Proof.
  intros Hok. unfold mech_counts. destruct (empty F); [done|]. cbn [negb].
  pose proof (sum_columns_flags F (valid_mech_cols F)) as Hsum.
  destruct (valid_mech_cols F) as [|c cols] eqn:E; [done|].
  rewrite Hsum; [done| |].
  - intros m Hm. rewrite <- E in Hm. by apply elem_of_valid_mech_cols in Hm as [? _].
  - intros r m Hr Hm. apply (flags_ok_cells F Hok); [done|]. by rewrite E.
Qed.



Lemma metrics_total (F : DataFrame) :
  "state" ∈ columns F → "paradigm" ∈ columns F → ∃ top, metrics F = Ok top.
Proof.
  intros Hs Hp. unfold metrics, top_paradigm_val.
  rewrite !getitem_Ok by done. cbn [mbind result_bind].
  destruct (negb (empty F)); cbn [mbind result_bind]; eauto.
Qed.



(** C7, as the code has it.  For a filtered frame that has rows and at
    least one active mechanism column, all of them holding flags, the keys
    of [mech_counts] are the active mechanisms, in registry order, and each
    one is paired with the number of rows where it is true: a mechanism that
    is true nowhere is there with count 0. *)
Theorem mech_counts_keys (F : DataFrame) :
  empty F = false → valid_mech_cols F ≠ [] → flags_ok F = true →
  ∃ counts, mech_counts F = Ok (MechCounts counts)
            ∧ counts.*1 = valid_mech_cols F
            ∧ ∀ m, m ∈ valid_mech_cols F → (m, true_rows F m) ∈ counts.
Proof.
  intros Hne Hcols Hok. rewrite (mech_counts_flags F Hok), Hne.
  exists ((λ m, (m, true_rows F m)) <$> valid_mech_cols F).
  split; [by destruct (valid_mech_cols F)|]. split.
  - rewrite <- list_fmap_compose. apply list_fmap_id.
  - intros m Hm. apply list_elem_of_fmap. by exists m.
Qed.

Lemma mech_counts_keys_witness :
  ∃ counts, mech_counts scenario = Ok (MechCounts counts)
            ∧ counts.*1 = valid_mech_cols scenario
            ∧ ∀ m, m ∈ valid_mech_cols scenario →
                   (m, true_rows scenario m) ∈ counts.
Proof.
  apply (mech_counts_keys scenario).
  - reflexivity.
  - vm_compute. discriminate.
  - vm_compute. reflexivity.
Defined.

(** C7, as it is claimed, fails on the empty view: with every row of the
    scenario table filtered out there is no frequency table at all, although
    [age_verification] is an active mechanism. *)
Lemma mech_counts_empty_view_no_keys :
  valid_mech_cols no_rows = ["age_verification"]
  ∧ mech_counts no_rows = Ok NoDataToDisplay
  ∧ ¬ (∃ counts, mech_counts no_rows = Ok (MechCounts counts)
                 ∧ counts.*1 = valid_mech_cols no_rows).
Proof.
  split; [by vm_compute|]. split; [by vm_compute|].
  intros (counts & Hc & _). vm_compute in Hc. discriminate.
Qed.

(** C9. On a well-typed table (state and paradigm columns present, flags
    in the mechanism columns), whatever is selected, the filter engine
    returns a frame, and the top metrics and the mechanism frequencies of
    that frame are computed without an exception.  The table with the same
    columns and no rows is filtered to no rows. *)
Theorem engine_total (T : DataFrame) (J P M : list string) :
  well_typed T = true →
  ∃ F top freq,
    apply T J P M = Ok F
    ∧ metrics F = Ok top
    ∧ mech_counts F = Ok freq
    ∧ apply (mkDataFrame (columns T) []) J P M
      = Ok (mkDataFrame (columns T) []).
Proof.
  unfold well_typed. rewrite !andb_true_iff, !bool_decide_eq_true.
  intros [[Hs Hp] Hok]. unfold apply at 1.
  rewrite (filtered_df_total _ _ _ T Hs Hp).
  set (F := mkDataFrame _ _).
  destruct (metrics_total F Hs Hp) as [top Htop].
  assert (flags_ok F = true) as HokF by (by apply flags_ok_filter).
  exists F, top. eexists. split; [done|]. split; [done|].
  split; [by apply mech_counts_flags|].
  unfold apply. by rewrite filtered_df_total.
Qed.

Lemma engine_total_witness :
  ∃ F top freq,
    apply scenario ["CA"] [] ["age_verification"] = Ok F
    ∧ metrics F = Ok top
    ∧ mech_counts F = Ok freq
    ∧ apply (mkDataFrame (columns scenario) []) ["CA"] [] ["age_verification"]
      = Ok (mkDataFrame (columns scenario) []).
Proof. apply engine_total. vm_compute. reflexivity. Defined.

(** ** The order of the modes *)

Global Instance cell_le_total : Total cell_le.
Proof.
  intros x y. unfold cell_le.
  destruct x as [|a|a|a], y as [|b|b|b]; cbn [cell_leb number_of];
    try (by left); try (by right).
  - destruct (Z.leb_spec (if a then 1 else 0) (if b then 1 else 0));
      [by left|right]. apply Is_true_true, Z.leb_le. lia.
  - destruct (Z.leb_spec (if a then 1 else 0) b);
      [by left|right]. apply Is_true_true, Z.leb_le. lia.
  - destruct (Z.leb_spec a (if b then 1 else 0));
      [by left|right]. apply Is_true_true, Z.leb_le. lia.
  - destruct (Z.leb_spec a b); [by left|right]. apply Is_true_true, Z.leb_le. lia.
  - destruct (String.leb_total a b) as [->| ->]; [by left|by right].
Qed.

Global Instance cell_le_trans : Transitive cell_le.
Proof.
  intros x y z. unfold cell_le.
  destruct x as [|a|a|a], y as [|b|b|b], z as [|c|c|c];
    cbn [cell_leb number_of]; try done;
    try (rewrite !Is_true_true, !Z.leb_le; lia).
  intros ??. by trans b.
Qed.

Lemma cell_le_Str (s s' : string) : cell_le (Str s) (Str s') ↔ (s ≤ s')%string.
Proof. done. Qed.

(** ** Distinct values and their counts *)

Lemma py_eq_Str (s : string) (y : cell) : py_eq (Str s) y = true ↔ y = Str s.
Proof.
  destruct y as [| | |t]; cbn; try (split; [done|by intros [=]]).
  rewrite bool_decide_eq_true. split; [by intros ->|by intros [= ->]].
Qed.

Lemma elem_of_unique (x : cell) (col : list cell) : x ∈ unique col → x ∈ col.
Proof.
  induction col as [|y col IH]; [done|]. cbn [unique].
  intros [->|[_ Hx]%list_elem_of_filter]%elem_of_cons; [left|right; auto].
Qed.

Lemma unique_Str (s : string) (col : list cell) :
  Str s ∈ col → Str s ∈ unique col.
Proof.
  induction col as [|y col IH]; [done|]. cbn [unique].
  intros Hin. destruct (decide (Str s = y)) as [<-|Hne]; [left|].
  apply elem_of_cons in Hin as [?|Hin]; [done|].
  right. apply list_elem_of_filter. split; [|by apply IH].
  apply Is_true_true, negb_true_iff.
  destruct y as [| | |t]; try done. cbn.
  apply bool_decide_eq_false_2. congruence.
Qed.

Lemma count_Str (s : string) (col : list cell) :
  count (Str s) col = length (filter (λ y, y = Str s) col).
Proof.
  unfold count. f_equal. apply list_filter_iff. intros y.
  by rewrite Is_true_true, py_eq_Str.
Qed.

Lemma count_positive (s : string) (col : list cell) :
  Str s ∈ col ↔ (0 < count (Str s) col)%nat.
Proof.
  rewrite count_Str. induction col as [|y col IH].
  - cbn. split; [by intros ?%elem_of_nil|lia].
  - rewrite filter_cons, elem_of_cons. case_decide as D.
    + subst y. cbn [length]. split; [lia|by left].
    + rewrite IH. split; [by intros [|]|by right].
Qed.

Lemma count_notna (s : string) (col : list cell) :
  count (Str s) (filter (λ x, notna x) col) = count (Str s) col.
Proof.
  rewrite !count_Str, list_filter_filter. f_equal.
  apply list_filter_iff. intros y. split; [tauto|]. by intros ->.
Qed.

Lemma paradigm_count_column (F : DataFrame) (s : string) :
  paradigm_count F s = count (Str s) ((λ r, cell_at r "paradigm") <$> rows F).
Proof.
  rewrite count_Str. unfold paradigm_count.
  induction (rows F) as [|r rs IH]; [done|].
  cbn [fmap list_fmap]. fold (fmap (λ r, cell_at r "paradigm") rs).
  rewrite !filter_cons.
  repeat case_decide; cbn [length]; try done. by rewrite IH.
Qed.

(** ** The modes of a column of labels *)

Lemma np_sort_labels (l : list cell) :
  forallb is_str l = true → np_sort l = merge_sort cell_le l.
Proof. done. Qed.

Lemma mode_labels (col : list cell) :
  forallb is_label col = true →
  existsb notna col = true →
  ∃ s rest, mode col = Str s :: rest
    ∧ (∀ s', count (Str s') col ≤ count (Str s) col)%nat
    ∧ (∀ s', count (Str s') col = count (Str s) col → (s ≤ s')%string).
Proof.
  intros Hlab Hsome. unfold mode.
  set (values := filter (λ x, notna x) col).
  set (keys := unique values).
  set (top := max_list ((λ k, count k values) <$> keys)).
  set (tied := filter (λ k, count k values = top) keys).
  (* every value is a string *)
  assert (∀ x, x ∈ values → ∃ s, x = Str s) as Hstr.
  { intros x [Hx Hin]%list_elem_of_filter.
    rewrite forallb_forall in Hlab.
    specialize (Hlab x (proj1 (list_elem_of_In _ _) Hin)).
    destruct x; try done. by eexists. }
  (* there is a key *)
  assert (keys ≠ []) as Hkeys.
  { apply existsb_exists in Hsome as (x & Hin%list_elem_of_In & Hx).
    assert (x ∈ values) as Hv by (apply list_elem_of_filter; by rewrite Hx).
    destruct (Hstr x Hv) as [s ->]. apply unique_Str in Hv.
    intros E. unfold keys in E. rewrite E in Hv. by apply elem_of_nil in Hv. }
  (* the largest count is the count of a key *)
  assert (∀ k, k ∈ keys → (count k values ≤ top)%nat) as Hle.
  { intros k Hk. apply max_list_elem_of_le, list_elem_of_fmap. by exists k. }
  assert (∃ k, k ∈ tied) as [k0 Hk0].
  { assert (top ∈ (λ k, count k values) <$> keys) as Htop.
    { apply max_list_elem_of. by destruct keys. }
    apply list_elem_of_fmap in Htop as (k & Hk & Hin).
    exists k. apply list_elem_of_filter. by split. }
  assert (∀ x, x ∈ tied → ∃ s, x = Str s ∧ count (Str s) values = top) as Htied.
  { intros x [Hx Hin]%list_elem_of_filter.
    destruct (Hstr x (elem_of_unique _ _ Hin)) as [s ->]. by exists s. }
  rewrite np_sort_labels; last first.
  { apply forallb_forall. intros x Hx%list_elem_of_In.
    by destruct (Htied x Hx) as (s & -> & _). }
  pose proof (StronglySorted_merge_sort cell_le tied) as Hsorted.
  pose proof (merge_sort_Permutation cell_le tied) as Hperm.
  destruct (merge_sort cell_le tied) as [|x rest] eqn:Esort.
  { apply Permutation_nil_l in Hperm. rewrite <- Hperm in Hk0.
    by apply elem_of_nil in Hk0. }
  assert (x ∈ tied) as Hx by (rewrite <- Hperm; left).
  destruct (Htied x Hx) as (s & -> & Hs).
  exists s, rest. split; [done|].
  assert (∀ s', (count (Str s') values ≤ top)%nat) as Hall.
  { intros s'. destruct (decide (Str s' ∈ values)) as [Hin|Hout].
    - by apply Hle, unique_Str.
    - rewrite count_positive in Hout. lia. }
  assert (0 < top)%nat as Hpos.
  { rewrite <- Hs. apply count_positive.
    apply elem_of_unique. by apply list_elem_of_filter in Hx as [_ ?]. }
  fold values in Hs, Hall. unfold values in Hs, Hall.
  rewrite count_notna in Hs. split.
  - intros s'. specialize (Hall s'). rewrite count_notna in Hall. lia.
  - intros s' Hs'.
    assert (Str s' ∈ tied) as Hin.
    { apply list_elem_of_filter. split.
      - unfold values. rewrite count_notna. lia.
      - apply unique_Str, count_positive. unfold values.
        rewrite count_notna. lia. }
    rewrite <- Hperm in Hin. apply elem_of_cons in Hin as [[= ->]|Hin]; [done|].
    apply StronglySorted_inv in Hsorted as [_ Hall'].
    rewrite Forall_forall in Hall'. exact (Hall' _ Hin).
Qed.

(** C10. On a filtered frame with rows, whose paradigms are strings or
    missing and not all missing, the dominant paradigm is a paradigm of the
    largest count, and among the paradigms of the largest count it is the
    smallest one in the order of strings. *)
Theorem dominant_paradigm_tie_break (F : DataFrame) :
  empty F = false →
  "paradigm" ∈ columns F →
  forallb (λ r, is_label (cell_at r "paradigm")) (rows F) = true →
  existsb (λ r, notna (cell_at r "paradigm")) (rows F) = true →
  ∃ s, top_paradigm_val F = Ok (Str s)
       ∧ (∀ s', paradigm_count F s' ≤ paradigm_count F s)%nat
       ∧ (∀ s', paradigm_count F s' = paradigm_count F s → (s ≤ s')%string).
Proof.
  intros Hne Hp Hlab Hsome.
  destruct (mode_labels ((λ r, cell_at r "paradigm") <$> rows F))
    as (s & rest & Hmode & Hmax & Hmin).
  - rewrite forallb_forall in Hlab. apply forallb_forall.
    intros x (r & -> & Hr)%list_elem_of_In%list_elem_of_fmap.
    by apply Hlab, list_elem_of_In.
  - apply existsb_exists in Hsome as (r & Hr & Hx). apply existsb_exists.
    exists (cell_at r "paradigm"). split; [|done].
    apply list_elem_of_In, list_elem_of_fmap. exists r.
    split; [done|by apply list_elem_of_In].
  - exists s. unfold top_paradigm_val. rewrite Hne. cbn [negb].
    rewrite getitem_Ok by done. cbn [mbind result_bind]. rewrite Hmode.
    split; [done|]. setoid_rewrite paradigm_count_column. by split.
Qed.

Lemma dominant_paradigm_tie_break_witness :
  ∃ s, top_paradigm_val tie = Ok (Str s)
       ∧ (∀ s', paradigm_count tie s' ≤ paradigm_count tie s)%nat
       ∧ (∀ s', paradigm_count tie s' = paradigm_count tie s → (s ≤ s')%string).
Proof.
  apply dominant_paradigm_tie_break.
  - reflexivity.
  - apply (bool_decide_unpack _). vm_compute. exact I.
  - vm_compute. reflexivity.
  - vm_compute. reflexivity.
Defined.

Example tie_dominant_paradigm :
  top_paradigm_val tie = Ok (Str "Consent")
  ∧ paradigm_count tie "Consent" = 2%nat
  ∧ paradigm_count tie "Duty of Care" = 2%nat.
Proof. by vm_compute. Qed.

(** The value ["None"] belongs to another state: a frame that has rows, none
    of them with a paradigm. *)
Lemma all_missing_paradigm_None (F : DataFrame) :
  empty F = false →
  "paradigm" ∈ columns F →
  forallb (λ r, negb (notna (cell_at r "paradigm"))) (rows F) = true →
  top_paradigm_val F = Ok (Str "None").
Proof.
  intros Hne Hp Hall. unfold top_paradigm_val. rewrite Hne. cbn [negb].
  rewrite getitem_Ok by done. cbn [mbind result_bind].
  assert (filter (λ x, notna x) ((λ r, cell_at r "paradigm") <$> rows F) = [])
    as Hvalues.
  { revert Hall. induction (rows F) as [|r rs IH]; [done|].
    cbn [forallb]. intros [Hr%negb_true_iff Hrs]%andb_true_iff.
    cbn [fmap list_fmap]. rewrite filter_cons.
    case_decide as D; [by rewrite Hr in D|by apply IH]. }
  unfold mode. by rewrite Hvalues.
Qed.

(** ** The scenarios of the specification *)

Example scenario_california :
  top_metrics scenario ["CA"] [] (λ m, bool_decide (m ∈ ["age_verification"]))
  = Ok (TopMetrics (boolean_index scenario [true; false; true])
          (mkSummary 2 1 (Str "Duty of Care")))
  ∧ mech_counts (boolean_index scenario [true; false; true])
    = Ok (MechCounts [("age_verification", 2)]).
Proof. by vm_compute. Qed.

Example scenario_unfiltered :
  top_metrics scenario [] [] (λ m, false)
  = Ok (TopMetrics scenario (mkSummary 3 2 (Str "Duty of Care")))
  ∧ mech_counts scenario = Ok (MechCounts [("age_verification", 2)]).
Proof. by vm_compute. Qed.

(** * Further properties of the code *)

(** ** The filter engine, row by row *)

Lemma returned_Some {A} (m : result A) (a : A) : returned m = Some a → m = Ok a.
Proof. destruct m; cbn; congruence. Qed.

Lemma isin1_iff (values : list string) (x : cell) :
  isin1 values x = true ↔ ∃ s, s ∈ values ∧ x = Str s.
Proof.
  destruct x as [| | |t]; cbn; try (split; [done|by intros (? & _ & [=])]).
  rewrite bool_decide_eq_true. split; [by exists t|by intros (s & ? & [= ->])].
Qed.

Lemma selection_keeps (values : list string) (x : cell) :
  match values with [] => true | _ => isin1 values x end = true
  ↔ values = [] ∨ ∃ s, s ∈ values ∧ x = Str s.
Proof.
  destruct values as [|v values]; [by split; [left|]|].
  rewrite isin1_iff. split; [by right|]. by intros [|].
Qed.

Lemma items_keep (cols : list string) (items : list (string * bool)) (r : row) :
  forallb (item_keeps cols r) items = true ↔
  ∀ m, (m, true) ∈ items → m ∈ cols →
       cell_at r m = Bool true ∨ cell_at r m = Num 1.
Proof.
  rewrite forallb_forall. split.
  - intros Hall m Hm Hcol. apply py_eq_True_iff.
    specialize (Hall (m, true) (proj1 (list_elem_of_In _ _) Hm)).
    unfold item_keeps in Hall. cbn [fst snd] in Hall.
    by rewrite bool_decide_eq_true_2 in Hall by done.
  - intros Hall [m c] Hin%list_elem_of_In. unfold item_keeps. cbn [fst snd].
    destruct c; [|done]. cbn [andb]. case_bool_decide as Hcol; [|done].
    cbn [negb orb]. by apply py_eq_True_iff, Hall.
Qed.

Lemma keeps_all_iff (J P : list string) (items : list (string * bool))
    (cols : list string) (r : row) :
  keeps_all J P items cols [ByState; ByParadigm; ByMechanisms] r = true ↔
  (J = [] ∨ ∃ s, s ∈ J ∧ cell_at r "state" = Str s)
  ∧ (P = [] ∨ ∃ s, s ∈ P ∧ cell_at r "paradigm" = Str s)
  ∧ ∀ m, (m, true) ∈ items → m ∈ cols →
         cell_at r m = Bool true ∨ cell_at r m = Num 1.
Proof.
  unfold keeps_all. cbn [forallb rule_keeps].
  rewrite !andb_true_iff, !selection_keeps, items_keep. tauto.
Qed.

Lemma filtered_df_returns (T : DataFrame) (J P : list string)
    (items : list (string * bool)) :
  (∃ F, filtered_df T J P items = Ok F)
  ↔ (J = [] ∨ "state" ∈ columns T) ∧ (P = [] ∨ "paradigm" ∈ columns T).
Proof.
  pose proof (run_rules_returned J P items [ByState; ByParadigm; ByMechanisms] T)
    as HR.
  rewrite <- filtered_df_run_rules in HR. cbn [forallb rule_runs] in HR.
  split.
  - intros [F HF]. rewrite HF in HR. cbn [returned] in HR.
    destruct J, P; repeat case_bool_decide; cbn in HR; try done; split; auto.
  - intros [HJ HP].
    assert ((match J with [] => true | _ => bool_decide ("state" ∈ columns T) end)
            && ((match P with [] => true | _ => bool_decide ("paradigm" ∈ columns T) end)
                && (true && true)) = true) as E.
    { destruct J, P; destruct HJ as [?|HJ], HP as [?|HP]; try done;
        by rewrite ?bool_decide_eq_true_2 by done. }
    rewrite E in HR. eexists. by apply returned_Some.
Qed.

(** X1. A row is in the filtered frame exactly when it is a row of the
    table, its state is one of the selected states (unless none is
    selected), its paradigm is one of the selected paradigms (unless none is
    selected), and every checked mechanism that is a column is true on it.
    A row whose state is missing is dropped by any state selection. *)
Theorem filtered_df_rows (T : DataFrame) (J P : list string)
    (items : list (string * bool)) (F : DataFrame) :
  filtered_df T J P items = Ok F →
  ∀ r, r ∈ rows F ↔
       r ∈ rows T
       ∧ (J = [] ∨ ∃ s, s ∈ J ∧ cell_at r "state" = Str s)
       ∧ (P = [] ∨ ∃ s, s ∈ P ∧ cell_at r "paradigm" = Str s)
       ∧ ∀ m, (m, true) ∈ items → m ∈ columns T →
              cell_at r m = Bool true ∨ cell_at r m = Num 1.
Proof.
  intros HF%filtered_df_Ok r. subst F. cbn [rows].
  rewrite list_elem_of_filter, Is_true_true, keeps_all_iff. tauto.
Qed.

Lemma filtered_df_rows_witness :
  bill "TX" "Consent" false ∈ rows (boolean_index scenario [true; false; true]) ↔
    bill "TX" "Consent" false ∈ rows scenario
    ∧ (["CA"] = [] ∨ ∃ s, s ∈ ["CA"]
                          ∧ cell_at (bill "TX" "Consent" false) "state" = Str s)
    ∧ (@nil string = [] ∨ ∃ s, s ∈ @nil string
                               ∧ cell_at (bill "TX" "Consent" false) "paradigm" = Str s)
    ∧ ∀ m, (m, true) ∈ [("age_verification", true)] → m ∈ columns scenario →
           cell_at (bill "TX" "Consent" false) m = Bool true
           ∨ cell_at (bill "TX" "Consent" false) m = Num 1.
Proof.
  apply (filtered_df_rows scenario ["CA"] [] [("age_verification", true)]).
  vm_compute. reflexivity.
Defined.

(** X2. Filtering is idempotent: the filtered frame, filtered again with
    the same selections, is returned as it is. *)
Theorem filtered_df_idempotent (T : DataFrame) (J P : list string)
    (items : list (string * bool)) (F : DataFrame) :
  filtered_df T J P items = Ok F → filtered_df F J P items = Ok F.
Proof.
  intros HF.
  assert (∃ F', filtered_df F J P items = Ok F') as [F' HF'].
  { apply filtered_df_returns.
    pose proof (proj1 (filtered_df_returns T J P items) (ex_intro _ F HF)) as H.
    apply filtered_df_Ok in HF. by subst F. }
  rewrite HF'. f_equal.
  apply filtered_df_Ok in HF'. subst F'.
  apply filtered_df_Ok in HF. subst F. cbn [columns rows]. f_equal.
  rewrite list_filter_filter. apply list_filter_iff. tauto.
Qed.

Lemma filtered_df_idempotent_witness :
  filtered_df (boolean_index scenario [true; false; true]) ["CA"] []
    [("age_verification", true)]
  = Ok (boolean_index scenario [true; false; true]).
Proof.
  apply (filtered_df_idempotent scenario). vm_compute. reflexivity.
Defined.

(** X3. The engine returns a frame exactly when the columns it reads are
    there: the state column if a state is selected, the paradigm column if a
    paradigm is selected.  The mechanism checkboxes never make it fail. *)
Theorem filtered_df_returns_iff (T : DataFrame) (J P : list string)
    (items : list (string * bool)) :
  (∃ F, filtered_df T J P items = Ok F)
  ↔ (J = [] ∨ "state" ∈ columns T) ∧ (P = [] ∨ "paradigm" ∈ columns T).
Proof. apply filtered_df_returns. Qed.

(** X5. A checked box for a mechanism that is not a column is skipped: it
    neither raises nor removes a row. *)
Theorem filter_mechanisms_skips_missing (items : list (string * bool))
    (df : DataFrame) :
  (∀ m, (m, true) ∈ items → m ∉ columns df) →
  filter_mechanisms items df = Ok df.
Proof.
  intros Hmiss. rewrite filter_mechanisms_spec.
  rewrite filter_all; [by rewrite DataFrame_eta|].
  intros r _. apply Is_true_true, items_keep. intros m Hm Hcol.
  by destruct (Hmiss m Hm).
Qed.

Lemma filter_mechanisms_skips_missing_witness :
  filter_mechanisms [("duty_of_care", true); ("age_verification", false)] scenario
  = Ok scenario.
Proof.
  apply filter_mechanisms_skips_missing.
  intros m [[= ->]|Hm%elem_of_cons]%elem_of_cons.
  - apply (bool_decide_unpack _). vm_compute. exact I.
  - destruct Hm as [[=]|Hm]. by apply elem_of_nil in Hm.
Defined.

(** X6. Selecting more states never removes a row: for a selection [J]
    with at least one state and a larger selection [J'], the rows for [J] are
    among the rows for [J']. *)
Theorem more_states_more_rows (T : DataFrame) (J J' P : list string)
    (items : list (string * bool)) (F : DataFrame) :
  J ≠ [] → J ⊆ J' →
  filtered_df T J P items = Ok F →
  ∃ F', filtered_df T J' P items = Ok F' ∧ rows F `sublist_of` rows F'.
Proof.
  intros HJ Hsub HF.
  pose proof (proj1 (filtered_df_returns T J P items) (ex_intro _ F HF))
    as [[?|Hs] HP]; [done|].
  destruct (proj2 (filtered_df_returns T J' P items)) as [F' HF']; [by auto|].
  exists F'. split; [done|].
  apply filtered_df_Ok in HF, HF'. subst F F'. cbn [rows].
  set (k := λ (K : list string) (r : row),
         keeps_all K P items (columns T) [ByState; ByParadigm; ByMechanisms] r).
  assert (filter (λ r, k J r) (rows T)
          = filter (λ r, k J r) (filter (λ r, k J' r) (rows T))) as E.
  { rewrite list_filter_filter. apply list_filter_iff. intros r.
    split; [|tauto]. intros Hk. split; [done|]. unfold k in *.
    apply Is_true_true, keeps_all_iff. apply Is_true_true, keeps_all_iff in Hk.
    destruct Hk as ([?|(s & Hs' & Hst)] & HP' & HM); [done|].
    split; [right; exists s; split; [by apply Hsub|done]|by split]. }
  change (filter (λ r, k J r) (rows T) `sublist_of` filter (λ r, k J' r) (rows T)).
  rewrite E. apply sublist_filter.
Qed.

Lemma more_states_more_rows_witness :
  ∃ F', filtered_df scenario ["CA"; "TX"] [] [] = Ok F'
        ∧ rows (boolean_index scenario [true; false; true]) `sublist_of` rows F'.
Proof.
  apply (more_states_more_rows scenario ["CA"] ["CA"; "TX"] [] []).
  - done.
  - intros s Hs. apply elem_of_cons. by left; apply list_elem_of_singleton.
  - vm_compute. reflexivity.
Defined.

(** ** The options of the sidebar *)

Lemma py_eq_refl (x : cell) : notna x = true → py_eq x x = true.
Proof.
  destruct x as [|b|z|s]; cbn; [done| | |]; intros _.
  - by apply bool_decide_eq_true_2.
  - apply Z.eqb_refl.
  - by apply bool_decide_eq_true_2.
Qed.

Lemma unique_NoDup (col : list cell) :
  forallb notna col = true → NoDup (unique col).
Proof.
  induction col as [|x col IH]; [constructor|].
  cbn [forallb unique]. intros [Hx Hcol]%andb_true_iff.
  apply NoDup_cons. split.
  - intros [Hne _]%list_elem_of_filter. by rewrite (py_eq_refl x Hx) in Hne.
  - by apply NoDup_filter, IH.
Qed.

Lemma length_unique (col : list cell) : (length (unique col) ≤ length col)%nat.
Proof.
  induction col as [|x col IH]; [done|]. cbn [unique length].
  pose proof (length_filter (λ y, negb (py_eq x y)) (unique col)). lia.
Qed.

Lemma forallb_notna_filter (col : list cell) :
  forallb notna (filter (λ x, notna x) col) = true.
Proof.
  apply forallb_forall. intros x [Hx _]%list_elem_of_In%list_elem_of_filter.
  by apply Is_true_true.
Qed.

Lemma filter_ext_elem_of {A} (P Q : A → Prop) `{!∀ x, Decision (P x)}
    `{!∀ x, Decision (Q x)} (l : list A) :
  (∀ x, x ∈ l → P x ↔ Q x) → filter P l = filter Q l.
Proof.
  induction l as [|x l IH]; intros Hext; [done|].
  rewrite !filter_cons. rewrite IH by (intros y Hy; apply Hext; by right).
  destruct (decide (P x)) as [HP|HP], (decide (Q x)) as [HQ|HQ]; try done;
    by destruct (Hext x ltac:(left)); tauto.
Qed.

Lemma labels_of_Str (l : list string) : labels_of (Str <$> l) = l.
Proof.
  unfold labels_of. induction l as [|s l IH]; [done|]. cbn. by rewrite IH.
Qed.

Lemma Str_labels_of (opts : list cell) :
  forallb is_str opts = true → Str <$> labels_of opts = opts.
Proof.
  unfold labels_of. induction opts as [|x opts IH]; [done|]. cbn [forallb].
  intros [Hx Hopts]%andb_true_iff. destruct x; try done.
  cbn. by rewrite (IH Hopts).
Qed.

Lemma StronglySorted_Str (l : list string) :
  StronglySorted cell_le (Str <$> l) → StronglySorted String.le l.
Proof.
  induction l as [|s l IH]; [constructor|].
  cbn [fmap list_fmap]. intros [Hl Hs]%StronglySorted_inv.
  constructor; [by apply IH|].
  apply Forall_forall. intros s' Hs'. rewrite Forall_forall in Hs.
  apply (Hs (Str s')), list_elem_of_fmap. by exists s'.
Qed.

Lemma options_labels (df : DataFrame) (c : string) :
  c ∈ columns df →
  forallb (λ r, is_label (cell_at r c)) (rows df) = true →
  ∃ l, options df c = Ok (Str <$> l)
       ∧ StronglySorted String.le l
       ∧ NoDup l
       ∧ ∀ s, s ∈ l ↔ ∃ r, r ∈ rows df ∧ cell_at r c = Str s.
Proof.
  intros Hc Hlab. unfold options. rewrite getitem_Ok by done.
  cbn [mbind result_bind].
  set (values := filter (λ x, notna x) ((λ r, cell_at r c) <$> rows df)).
  assert (∀ x, x ∈ values ↔ ∃ s r, x = Str s ∧ r ∈ rows df ∧ cell_at r c = Str s)
    as Hvalues.
  { intros x. unfold values. rewrite list_elem_of_filter, list_elem_of_fmap. split.
    - intros [Hx (r & -> & Hr)]. rewrite forallb_forall in Hlab.
      specialize (Hlab r (proj1 (list_elem_of_In _ _) Hr)).
      destruct (cell_at r c) eqn:E; try done. by exists s, r.
    - intros (s & r & -> & Hr & E). split; [done|]. by exists r. }
  assert (forallb is_str (unique values) = true) as Hstr.
  { apply forallb_forall. intros x Hx%list_elem_of_In%elem_of_unique.
    by apply Hvalues in Hx as (s & _ & -> & _). }
  unfold sorted. rewrite Hstr. cbn [orb].
  set (opts := merge_sort cell_le (unique values)).
  assert (opts ≡ₚ unique values) as Hperm by apply merge_sort_Permutation.
  assert (forallb is_str opts = true) as Hstr'.
  { apply forallb_forall. intros x Hx%list_elem_of_In. rewrite Hperm in Hx.
    rewrite forallb_forall in Hstr. by apply Hstr, list_elem_of_In. }
  exists (labels_of opts). rewrite (Str_labels_of opts Hstr').
  split; [done|]. split; [|split].
  - apply StronglySorted_Str. rewrite (Str_labels_of opts Hstr').
    apply StronglySorted_merge_sort; apply _.
  - apply (NoDup_fmap_1 Str). rewrite (Str_labels_of opts Hstr'), Hperm.
    apply unique_NoDup, forallb_notna_filter.
  - intros s. transitivity (Str s ∈ values).
    + transitivity (Str s ∈ opts).
      * rewrite <- (Str_labels_of opts Hstr') at 2.
        rewrite list_elem_of_fmap. split; [by exists s|by intros (? & [= ->] & ?)].
      * rewrite Hperm. split; [apply elem_of_unique|apply unique_Str].
    + rewrite Hvalues. split; [by intros (? & r & [= <-] & ?); exists r|].
      intros (r & ? & ?). by exists s, r.
Qed.

(** X7. On a table whose states are strings or missing, the state options
    of the sidebar are the states that occur in the table, each once, in
    ascending order; a missing state is no option. *)
Theorem all_states_options (df : DataFrame) :
  "state" ∈ columns df →
  forallb (λ r, is_label (cell_at r "state")) (rows df) = true →
  ∃ l, all_states df = Ok (Str <$> l)
       ∧ StronglySorted String.le l
       ∧ NoDup l
       ∧ ∀ s, s ∈ l ↔ ∃ r, r ∈ rows df ∧ cell_at r "state" = Str s.
Proof. apply options_labels. Qed.

Lemma all_states_options_witness :
  ∃ l, all_states tie = Ok (Str <$> l)
       ∧ StronglySorted String.le l
       ∧ NoDup l
       ∧ ∀ s, s ∈ l ↔ ∃ r, r ∈ rows tie ∧ cell_at r "state" = Str s.
Proof.
  apply all_states_options.
  - apply (bool_decide_unpack _). vm_compute. exact I.
  - vm_compute. reflexivity.
Defined.

(** X8. Selecting every paradigm option, which is the default, is not the
    same as selecting none: on a table whose paradigms are strings or
    missing, with at least one paradigm, it keeps exactly the rows that have
    a paradigm and drops the rows whose paradigm is missing. *)
Theorem all_paradigms_selected (df : DataFrame) :
  "paradigm" ∈ columns df →
  forallb (λ r, is_label (cell_at r "paradigm")) (rows df) = true →
  existsb (λ r, notna (cell_at r "paradigm")) (rows df) = true →
  ∃ opts, all_paradigms df = Ok opts
          ∧ filter_paradigm (labels_of opts) df
            = Ok (mkDataFrame (columns df)
                    (filter (λ r, notna (cell_at r "paradigm")) (rows df))).
Proof.
  intros Hc Hlab Hsome.
  destruct (options_labels df "paradigm" Hc Hlab) as (l & Hopts & _ & _ & Hl).
  exists (Str <$> l). split; [done|]. rewrite labels_of_Str.
  assert (l ≠ []) as Hne.
  { apply existsb_exists in Hsome as (r & Hr%list_elem_of_In & Hx).
    rewrite forallb_forall in Hlab.
    specialize (Hlab r (proj1 (list_elem_of_In _ _) Hr)).
    destruct (cell_at r "paradigm") as [| | |s] eqn:E; try done.
    assert (s ∈ l) as Hs by (apply Hl; by exists r).
    intros ->. by apply elem_of_nil in Hs. }
  rewrite (filter_paradigm_spec [] l []). cbn [rule_runs rule_keeps].
  destruct l as [|s0 l0]; [done|].
  rewrite bool_decide_eq_true_2 by done. do 2 f_equal.
  apply filter_ext_elem_of. intros r Hr. rewrite !Is_true_true, isin1_iff.
  rewrite forallb_forall in Hlab.
  specialize (Hlab r (proj1 (list_elem_of_In _ _) Hr)). split.
  - by intros (s & _ & ->).
  - intros Hx. destruct (cell_at r "paradigm") as [| | |s] eqn:E; try done.
    exists s. split; [|done]. apply Hl. by exists r.
Qed.

Lemma all_paradigms_selected_witness :
  ∃ opts, all_paradigms gaps = Ok opts
          ∧ filter_paradigm (labels_of opts) gaps
            = Ok (mkDataFrame (columns gaps)
                    (filter (λ r, notna (cell_at r "paradigm")) (rows gaps))).
Proof.
  apply all_paradigms_selected.
  - apply (bool_decide_unpack _). vm_compute. exact I.
  - vm_compute. reflexivity.
  - vm_compute. reflexivity.
Defined.

Example gaps_all_paradigms :
  length (rows gaps) = 4%nat
  ∧ (len <$> returned (filter_paradigm [] gaps)) = Some 4
  ∧ (len <$> returned (opts ← all_paradigms gaps;
                        filter_paradigm (labels_of opts) gaps)) = Some 3.
Proof. by vm_compute. Qed.

(** X9. The default state selection shows the bills of the first three
    states in ascending order of their names: on a table whose states are
    strings or missing, a row passes the default state filter exactly when
    its state is one of these three; when the table has no state at all,
    nothing is selected and every row passes. *)
Theorem default_states_view (df : DataFrame) :
  "state" ∈ columns df →
  forallb (λ r, is_label (cell_at r "state")) (rows df) = true →
  ∃ l F, all_states df = Ok (Str <$> l)
         ∧ filter_state (labels_of (default_states (Str <$> l))) df = Ok F
         ∧ ∀ r, r ∈ rows F ↔
                r ∈ rows df
                ∧ (l = [] ∨ ∃ s, s ∈ take 3 l ∧ cell_at r "state" = Str s).
Proof.
  intros Hc Hlab.
  destruct (options_labels df "state" Hc Hlab) as (l & Hopts & _ & _ & Hl).
  exists l. eexists. split; [done|].
  assert (labels_of (default_states (Str <$> l)) = take 3 l) as ->.
  { destruct l as [|s l]; [done|].
    change (default_states (Str <$> s :: l)) with (take 3 (Str <$> s :: l)).
    by rewrite <- fmap_take, labels_of_Str. }
  rewrite (filter_state_spec (take 3 l) [] []). cbn [rule_runs rule_keeps].
  assert ((match take 3 l with [] => true | _ => bool_decide ("state" ∈ columns df) end)
          = true) as ->.
  { rewrite bool_decide_eq_true_2 by done. by destruct (take 3 l). }
  split; [done|]. intros r. cbn [rows].
  rewrite list_elem_of_filter, Is_true_true, selection_keeps.
  assert (take 3 l = [] ↔ l = []) as ->; [|tauto].
  by destruct l.
Qed.

Lemma default_states_view_witness :
  ∃ l F, all_states tie = Ok (Str <$> l)
         ∧ filter_state (labels_of (default_states (Str <$> l))) tie = Ok F
         ∧ ∀ r, r ∈ rows F ↔
                r ∈ rows tie
                ∧ (l = [] ∨ ∃ s, s ∈ take 3 l ∧ cell_at r "state" = Str s).
Proof.
  apply default_states_view.
  - apply (bool_decide_unpack _). vm_compute. exact I.
  - vm_compute. reflexivity.
Defined.

(** ** The top metrics of a filtered frame *)

Lemma metrics_Ok (F : DataFrame) (top : Summary) :
  metrics F = Ok top →
  "state" ∈ columns F
  ∧ bills_found top = len F
  ∧ states_represented top = nunique ((λ r, cell_at r "state") <$> rows F)
  ∧ top_paradigm_val F = Ok (dominant_paradigm top).
Proof.
  unfold metrics, getitem. case_bool_decide as Hs; [|done].
  cbn [mbind result_bind].
  destruct (top_paradigm_val F) as [x|]; [|done]. cbn [mbind result_bind].
  by intros [= <-].
Qed.

(** X10. The number of states represented is never more than the number
    of bills found, and neither is negative. *)
Theorem states_at_most_bills (F : DataFrame) (top : Summary) :
  metrics F = Ok top →
  0 ≤ states_represented top ≤ bills_found top.
Proof.
  intros (_ & -> & -> & _)%metrics_Ok. unfold nunique, len.
  pose proof (length_unique (filter (λ x, notna x) ((λ r, cell_at r "state") <$> rows F))).
  pose proof (length_filter (λ x, notna x) ((λ r, cell_at r "state") <$> rows F)) as Hf.
  rewrite length_fmap in Hf. lia.
Qed.

Lemma states_at_most_bills_witness :
  0 ≤ states_represented (mkSummary 3 2 (Str "Duty of Care"))
    ≤ bills_found (mkSummary 3 2 (Str "Duty of Care")).
Proof. apply (states_at_most_bills scenario). vm_compute. reflexivity. Defined.

(** X11. With states selected, the number of states represented is at
    most the number of selected states. *)
Theorem states_at_most_selected (T : DataFrame) (J P : list string)
    (items : list (string * bool)) (F : DataFrame) (top : Summary) :
  J ≠ [] →
  filtered_df T J P items = Ok F →
  metrics F = Ok top →
  states_represented top ≤ Z.of_nat (length J).
Proof.
  intros HJ HF (_ & _ & -> & _)%metrics_Ok. unfold nunique.
  apply inj_le. rewrite <- (length_fmap Str J).
  apply submseteq_length, NoDup_submseteq.
  - apply unique_NoDup, forallb_notna_filter.
  - intros x [_ (r & -> & Hr)%list_elem_of_fmap]%elem_of_unique%list_elem_of_filter.
    pose proof (filtered_df_Ok J P items T F HF) as ->. cbn [rows] in Hr.
    apply list_elem_of_filter in Hr as [Hk%Is_true_true%keeps_all_iff _].
    destruct Hk as ([?|(s & Hs & ->)] & _); [done|].
    apply list_elem_of_fmap. by exists s.
Qed.

Lemma states_at_most_selected_witness :
  states_represented (mkSummary 2 1 (Str "Duty of Care"))
  ≤ Z.of_nat (length ["CA"; "NY"]).
Proof.
  apply (states_at_most_selected scenario ["CA"; "NY"] [] []
           (boolean_index scenario [true; false; true])).
  - done.
  - vm_compute. reflexivity.
  - vm_compute. reflexivity.
Defined.

(** X12. With paradigms selected and at least one bill found, the dominant
    paradigm is one of the selected paradigms: neither sentinel shows up. *)
Theorem dominant_paradigm_selected (T : DataFrame) (J P : list string)
    (items : list (string * bool)) (F : DataFrame) :
  P ≠ [] →
  filtered_df T J P items = Ok F →
  rows F ≠ [] →
  ∃ s, s ∈ P ∧ top_paradigm_val F = Ok (Str s).
Proof.
  intros HP HF Hrows.
  pose proof (proj1 (filtered_df_returns T J P items) (ex_intro _ F HF))
    as [_ [?|Hcol]]; [done|].
  assert (∀ r, r ∈ rows F → ∃ s, s ∈ P ∧ cell_at r "paradigm" = Str s) as Hpar.
  { intros r Hr. apply (filtered_df_Ok J P items T F) in HF. subst F.
    cbn [rows] in Hr.
    apply list_elem_of_filter in Hr as [Hk%Is_true_true%keeps_all_iff _].
    by destruct Hk as (_ & [?|?] & _). }
  assert (columns F = columns T) as Hcols.
  { apply (filtered_df_Ok J P items T F) in HF. by subst F. }
  assert (empty F = false) as Hne.
  { unfold empty. rewrite Hcols. destruct (columns T); [by apply elem_of_nil in Hcol|].
    by destruct (rows F). }
  set (col := (λ r, cell_at r "paradigm") <$> rows F).
  destruct (rows F) as [|r0 rs] eqn:Erows; [done|].
  destruct (Hpar r0 ltac:(left)) as (s0 & _ & Hs0).
  destruct (mode_labels col) as (s & rest & Hmode & Hmax & _).
  - apply forallb_forall. unfold col. rewrite ?Erows.
    intros x (r & -> & Hr)%list_elem_of_In%list_elem_of_fmap.
    by destruct (Hpar r Hr) as (? & _ & ->).
  - unfold col. rewrite ?Erows. cbn. by rewrite Hs0.
  - exists s. split.
    + assert (Str s ∈ col) as Hin.
      { apply count_positive. specialize (Hmax s0).
        assert (Str s0 ∈ col) as Hin0.
        { unfold col. rewrite ?Erows, <- Hs0. left. }
        apply count_positive in Hin0. lia. }
      unfold col in Hin. rewrite ?Erows in Hin.
      apply list_elem_of_fmap in Hin as (r & Hr & Hin).
      destruct (Hpar r Hin) as (s' & Hs' & E). congruence.
    + unfold top_paradigm_val. rewrite Hne. cbn [negb].
      rewrite getitem_Ok by (by rewrite Hcols). cbn [mbind result_bind].
      rewrite ?Erows. fold col. by rewrite Hmode.
Qed.

Lemma dominant_paradigm_selected_witness :
  ∃ s, s ∈ ["Consent"; "Other"]
       ∧ top_paradigm_val (boolean_index tie [false; true; false; true])
         = Ok (Str s).
Proof.
  apply (dominant_paradigm_selected tie [] ["Consent"; "Other"] []).
  - done.
  - vm_compute. reflexivity.
  - vm_compute. discriminate.
Defined.

(** ** The mechanism frequencies of a filtered frame *)

(** X13. A required mechanism is true in every bill found: after
    filtering on a set of mechanisms, the frequency of each of them is the
    number of bills found. *)
Theorem required_mechanism_frequency (T : DataFrame) (J P M : list string)
    (F : DataFrame) (m : string) :
  flags_ok T = true →
  apply T J P M = Ok F →
  rows F ≠ [] →
  m ∈ M → m ∈ valid_mech_cols T →
  ∃ counts, mech_counts F = Ok (MechCounts counts) ∧ (m, len F) ∈ counts.
Proof.
  intros Hok HF Hrows Hm Hvalid. apply filtered_df_Ok in HF.
  set (k := λ r : row, keeps_all J P (mech_filters T (λ mech, bool_decide (mech ∈ M)))
              (columns T) [ByState; ByParadigm; ByMechanisms] r) in HF.
  assert (flags_ok F = true) as HokF by (subst F; by apply flags_ok_filter).
  assert (valid_mech_cols F = valid_mech_cols T) as Hcols by (by subst F).
  assert (empty F = false) as Hne.
  { apply elem_of_valid_mech_cols in Hvalid as [Hcol _].
    unfold empty. subst F. cbn [columns rows] in *.
    destruct (columns T); [by apply elem_of_nil in Hcol|].
    by destruct (filter _ _). }
  rewrite (mech_counts_flags F HokF), Hne, Hcols.
  destruct (valid_mech_cols T) as [|c cols] eqn:E; [by apply elem_of_nil in Hvalid|].
  eexists. split; [done|]. apply list_elem_of_fmap. exists m. split; [|done].
  f_equal. unfold true_rows, len. f_equal. rewrite filter_all; [done|].
  intros r Hr. subst F. cbn [rows] in Hr.
  apply list_elem_of_filter in Hr as [Hk _]. unfold k, keeps_all in Hk.
  cbn [forallb rule_keeps] in Hk. rewrite !andb_True in Hk.
  destruct Hk as (_ & _ & Hk%Is_true_true & _).
  apply Is_true_true, (proj1 (mech_filters_keeps _ _ _) Hk m).
  - by rewrite E.
  - by apply bool_decide_eq_true_2.
Qed.

Lemma required_mechanism_frequency_witness :
  ∃ counts, mech_counts (boolean_index scenario [true; false; true])
            = Ok (MechCounts counts)
            ∧ ("age_verification", len (boolean_index scenario [true; false; true]))
              ∈ counts.
Proof.
  apply (required_mechanism_frequency scenario [] [] ["age_verification"]).
  - vm_compute. reflexivity.
  - vm_compute. reflexivity.
  - vm_compute. discriminate.
  - left.
  - apply (bool_decide_unpack _). vm_compute. exact I.
Defined.

(** X14. On a frame whose mechanism columns hold flags, no frequency is
    negative and none exceeds the number of bills found. *)
Theorem mech_counts_bounded (F : DataFrame) (counts : list (string * Z))
    (m : string) (n : Z) :
  flags_ok F = true →
  mech_counts F = Ok (MechCounts counts) →
  (m, n) ∈ counts →
  0 ≤ n ≤ len F.
Proof.
  intros Hok Hcounts Hin. rewrite (mech_counts_flags F Hok) in Hcounts.
  destruct (empty F); [done|].
  destruct (valid_mech_cols F) as [|c cols]; [done|].
  injection Hcounts as <-.
  change ((m, n) ∈ (λ m, (m, true_rows F m)) <$> (c :: cols)) in Hin.
  apply list_elem_of_fmap in Hin as (m' & [= -> ->] & _).
  unfold true_rows, len.
  pose proof (length_filter (λ r, py_eq (cell_at r m') (Bool true)) (rows F)). lia.
Qed.

Lemma mech_counts_bounded_witness : 0 ≤ 2 ≤ len scenario.
Proof.
  apply (mech_counts_bounded scenario [("age_verification", 2)] "age_verification").
  - vm_compute. reflexivity.
  - vm_compute. reflexivity.
  - left.
Defined.

(** ** Labels, character by character *)

Lemma title_from_replace_cons (b : bool) (c : ascii) (k : string) :
  title_from b (replace "_" " " (String c k))
  = String (label_char b c)
      (title_from (is_cased (if bool_decide (c = "_"%char) then " "%char else c))
         (replace "_" " " k)).
Proof. done. Qed.

Ltac each_ascii c :=
  destruct c as [[] [] [] [] [] [] [] []]; vm_compute; try done.

Lemma key_char_label_char (b : bool) (c : ascii) :
  snake_char c = true → key_char (label_char b c) = c.
Proof. destruct b; each_ascii c. Qed.

Lemma label_char_not_underscore (b : bool) (c : ascii) :
  label_char b c ≠ "_"%char.
Proof. destruct b; each_ascii c. Qed.

Lemma label_char_idempotent (b : bool) (c : ascii) :
  label_char b (label_char b c) = label_char b c.
Proof. destruct b; each_ascii c. Qed.

Lemma label_char_cased (b : bool) (c : ascii) :
  is_cased (if bool_decide (label_char b c = "_"%char) then " "%char
            else label_char b c)
  = is_cased (if bool_decide (c = "_"%char) then " "%char else c).
Proof. destruct b; each_ascii c. Qed.

Lemma title_from_replace_inj (b : bool) (k1 k2 : string) :
  snake_case k1 = true → snake_case k2 = true →
  title_from b (replace "_" " " k1) = title_from b (replace "_" " " k2) →
  k1 = k2.
Proof.
  revert b k2. induction k1 as [|c1 k1 IH]; intros b [|c2 k2]; try done.
  cbn [snake_case]. intros [Hc1 Hk1]%andb_true_iff [Hc2 Hk2]%andb_true_iff.
  rewrite !title_from_replace_cons. intros [= Hc Hk].
  assert (c1 = c2) as ->.
  { by rewrite <- (key_char_label_char b c1), <- (key_char_label_char b c2), Hc. }
  f_equal. exact (IH _ k2 Hk1 Hk2 Hk).
Qed.

(** X15. Two different snake_case identifiers (ASCII, no upper-case
    letter, no space) have different labels: the label still tells the
    mechanisms apart. *)
Theorem format_mechanism_label_inj (k1 k2 : string) :
  snake_case k1 = true → snake_case k2 = true →
  k1 ≠ k2 →
  format_mechanism_label k1 ≠ format_mechanism_label k2.
Proof.
  intros H1 H2 Hne Heq. apply Hne.
  by apply (title_from_replace_inj false).
Qed.

Lemma format_mechanism_label_inj_witness :
  format_mechanism_label "age_verification"
  ≠ format_mechanism_label "age_verification_2".
Proof.
  apply format_mechanism_label_inj; [reflexivity|reflexivity|discriminate].
Defined.

Lemma title_from_replace_shape (b : bool) (k : string) :
  member "_" (title_from b (replace "_" " " k)) = false
  ∧ String.length (title_from b (replace "_" " " k)) = String.length k.
Proof.
  revert b. induction k as [|c k IH]; intros b; [done|].
  rewrite title_from_replace_cons. cbn [member String.length].
  destruct (IH (is_cased (if bool_decide (c = "_"%char) then " "%char else c)))
    as [-> ->].
  split; [|done].
  rewrite bool_decide_eq_false_2; [done|apply label_char_not_underscore].
Qed.

(** X16. The label of an ASCII identifier has no underscore left and is
    as long as the identifier. *)
Theorem format_mechanism_label_shape (mech_key : string) :
  ascii_only mech_key = true →
  member "_" (format_mechanism_label mech_key) = false
  ∧ String.length (format_mechanism_label mech_key) = String.length mech_key.
Proof. intros _. apply title_from_replace_shape. Qed.

Lemma format_mechanism_label_shape_witness :
  member "_" (format_mechanism_label "duty_of_care") = false
  ∧ String.length (format_mechanism_label "duty_of_care")
    = String.length "duty_of_care".
Proof. apply format_mechanism_label_shape. reflexivity. Defined.

Lemma title_from_replace_idempotent (b : bool) (k : string) :
  title_from b (replace "_" " " (title_from b (replace "_" " " k)))
  = title_from b (replace "_" " " k).
Proof.
  revert b. induction k as [|c k IH]; intros b; [done|].
  rewrite !title_from_replace_cons.
  by rewrite label_char_idempotent, label_char_cased, IH.
Qed.

(** X17. Formatting the label of an ASCII identifier again changes
    nothing. *)
Theorem format_mechanism_label_idempotent (mech_key : string) :
  ascii_only mech_key = true →
  format_mechanism_label (format_mechanism_label mech_key)
  = format_mechanism_label mech_key.
Proof. intros _. apply title_from_replace_idempotent. Qed.

Lemma format_mechanism_label_idempotent_witness :
  format_mechanism_label (format_mechanism_label "school_based")
  = format_mechanism_label "school_based".
Proof. apply format_mechanism_label_idempotent. reflexivity. Defined.

(** X18. Whatever the columns of the table, the labels of its active
    mechanisms are pairwise distinct: no two checkboxes, bars or heatmap
    columns share a name. *)
Theorem mechanism_labels_NoDup (df : DataFrame) : NoDup (mechanism_labels df).
Proof.
  unfold mechanism_labels. apply NoDup_fmap_2_strong.
  - intros k1 k2 [_ H1]%elem_of_valid_mech_cols [_ H2]%elem_of_valid_mech_cols.
    assert (∀ k, k ∈ mechanism_cols → snake_case k = true) as Hsnake.
    { intros k Hk%list_elem_of_In. revert k Hk. apply forallb_forall.
      by vm_compute. }
    apply (title_from_replace_inj false); auto.
  - unfold valid_mech_cols. apply NoDup_filter.
    apply (bool_decide_unpack _). by vm_compute.
Qed.

(** ** The heatmap *)

(** X19. The heatmap marks a cell ✅ when the mechanism filter accepts it
    (the boolean [True] or the number 1), and also when the value is
    missing, a number other than 0 and 1, or a non-empty string, which the
    filter rejects. *)
Theorem heatmap_mark_check (x : cell) :
  heatmap_mark x = "✅" ↔
  py_eq x (Bool true) = true
  ∨ x = NaN
  ∨ (∃ z, x = Num z ∧ z ≠ 0 ∧ z ≠ 1)
  ∨ (∃ s, x = Str s ∧ s ≠ "").
Proof.
  unfold heatmap_mark. destruct x as [|[]|z|s]; cbn [truthy py_eq].
  - split; [by right; left|done].
  - split; [by left|done].
  - split; [done|]. by intros [|[|[(? & ? & _)|(? & ? & _)]]].
  - destruct (Z.eqb_spec z 0) as [->|Hz]; cbn [negb].
    + split; [done|]. intros [|[|[(? & [= <-] & ? & _)|(? & ? & _)]]]; done.
    + split; [|done]. intros _.
      destruct (Z.eqb_spec z 1) as [->|Hz1]; [by left|].
      right; right; left. by exists z.
  - case_bool_decide as Hs; cbn [negb].
    + split; [done|]. intros [|[|[(? & ? & _)|(? & [= <-] & ?)]]]; done.
    + split; [|done]. intros _. right; right; right. by exists s.
Qed.

(** ** Options that cannot be sorted *)

Lemma unique_py_eq (x : cell) (col : list cell) :
  x ∈ col → notna x = true → ∃ y, y ∈ unique col ∧ py_eq y x = true.
Proof.
  induction col as [|z col IH]; intros Hin Hx; [by apply elem_of_nil in Hin|].
  cbn [unique]. apply elem_of_cons in Hin as [->|Hin].
  - exists z. split; [left|by apply py_eq_refl].
  - destruct (IH Hin Hx) as (y & Hy & Hyx).
    destruct (py_eq z y) eqn:Hzy.
    + exists z. split; [left|].
      destruct z as [|[]|?|?], y as [|[]|?|?], x as [|[]|?|?]; cbn in *;
        try done; repeat case_bool_decide; try done;
        rewrite ?Z.eqb_eq in *; congruence.
    + exists y. split; [|done]. right. apply list_elem_of_filter.
      split; [by rewrite Hzy|done].
Qed.

(** X20. A column that holds both a string and a number has no options:
    sorting its values raises [TypeError]. *)
Theorem options_TypeError (df : DataFrame) (c : string) (r1 r2 : row) :
  c ∈ columns df →
  r1 ∈ rows df → is_str (cell_at r1 c) = true →
  r2 ∈ rows df → is_number (cell_at r2 c) = true →
  options df c = Raise TypeError.
Proof.
  intros Hc Hr1 Hs Hr2 Hn. unfold options. rewrite getitem_Ok by done.
  cbn [mbind result_bind].
  set (values := filter (λ x, notna x) ((λ r, cell_at r c) <$> rows df)).
  assert (cell_at r1 c ∈ values) as H1.
  { apply list_elem_of_filter. split; [by destruct (cell_at r1 c)|].
    apply list_elem_of_fmap. by exists r1. }
  assert (cell_at r2 c ∈ values) as H2.
  { apply list_elem_of_filter. split; [by destruct (cell_at r2 c)|].
    apply list_elem_of_fmap. by exists r2. }
  destruct (unique_py_eq _ _ H1) as (y1 & Hy1 & E1); [by destruct (cell_at r1 c)|].
  destruct (unique_py_eq _ _ H2) as (y2 & Hy2 & E2); [by destruct (cell_at r2 c)|].
  unfold sorted.
  assert (forallb is_str (unique values) = false) as ->.
  { apply not_true_is_false. intros Hall. rewrite forallb_forall in Hall.
    specialize (Hall y2 (proj1 (list_elem_of_In _ _) Hy2)).
    by destruct y2, (cell_at r2 c). }
  assert (forallb is_number (unique values) = false) as ->; [|done].
  apply not_true_is_false. intros Hall. rewrite forallb_forall in Hall.
  specialize (Hall y1 (proj1 (list_elem_of_In _ _) Hy1)).
  by destruct y1, (cell_at r1 c).
Qed.

Lemma options_TypeError_witness :
  options (mkDataFrame ["state"] [ {[ "state" := Str "CA" ]}; {[ "state" := Num 6 ]} ])
    "state" = Raise TypeError.
Proof.
  apply (options_TypeError _ "state" {[ "state" := Str "CA" ]} {[ "state" := Num 6 ]}).
  - left.
  - left.
  - reflexivity.
  - right. left.
  - reflexivity.
Defined.
